(** * AGView: the OBS wrapper, the supported-file table and the mobile gateway

    A shallow embedding of the parts of the application that carry logic of
    their own:
    - [supportedFiles] (app/_globals/supportedFilesFilters),
    - the [OBS] wrapper class (worker/obs.ts): [initOBS], [shutdown],
      [alignItem], [addFile], [createSource], [setSetting],
    - the older [OBS] wrapper, whose [addFile] dispatches on an inline
      [SUPPORTED_EXT] object,
    - the [/connect] and [/disconnect] handlers of [MobileService].

    JavaScript numbers are IEEE 754 binary64 values ([spec_float] with
    precision 53 and maximal exponent 1024, computed exactly); a string is
    held as the bytes of its UTF-8 encoding. *)

From Stdlib Require Import ZArith List String Ascii Bool Lia QArith Qround.
From Stdlib Require Import Floats.SpecFloat Numbers.DecimalString Numbers.DecimalZ.
Import ListNotations.

Local Open Scope string_scope.
Local Open Scope list_scope.

(* ------------------------------------------------------------------------- *)
(** ** JavaScript numbers *)

Module Number.

Definition prec : Z := 53.
Definition emax : Z := 1024.

(** A JavaScript [number]. *)
Definition number : Type := spec_float.

(** An integer literal (exact below 2^53, rounded to nearest-even above). *)
Definition of_Z (z : Z) : number := binary_normalize prec emax z 0 false.

Definition div : number -> number -> number := SFdiv prec emax.
Definition mul : number -> number -> number := SFmul prec emax.
Definition sub : number -> number -> number := SFsub prec emax.
Definition ltb : number -> number -> bool := SFltb.
Definition eqb : number -> number -> bool := SFeqb.

(** [Math.floor]: the largest integral number not above [x]; NaN, the
    infinities and the zeros are returned as they are, and a positive
    number below 1 gives +0. *)
Definition floor (x : number) : number :=
  match x with
  | S754_finite s m e =>
      if (0 <=? e)%Z then x
      else
        let q := Z.shiftr (Zpos m) (- e) in
        let exact := (Z.shiftl q (- e) =? Zpos m)%Z in
        if s
        then binary_normalize prec emax (- (if exact then q else q + 1)) 0 true
        else binary_normalize prec emax q 0 false
  | _ => x
  end.

(** The rational value of a finite number. *)
Definition to_Q (x : number) : option Q :=
  match x with
  | S754_zero _ => Some 0%Q
  | S754_finite s m e =>
      let v := if (0 <=? e)%Z
               then inject_Z (Zpos m * 2 ^ e)
               else Qmake (Zpos m) (Z.to_pos (2 ^ (- e))) in
      Some (if s then Qopp v else v)
  | _ => None
  end.

End Number.

(* ------------------------------------------------------------------------- *)
(** ** JavaScript strings and arrays of strings *)

Module Str.

Definition lower_ascii (c : ascii) : ascii :=
  let n := nat_of_ascii c in
  if (65 <=? n)%nat && (n <=? 90)%nat then ascii_of_nat (n + 32) else c.

(** U+0130 (capital I with dot above) is the bytes C4 B0; U+212A (the
    Kelvin sign) is the bytes E2 84 AA. *)
Definition is_capital_I_dot (c d : ascii) : bool :=
  (nat_of_ascii c =? 196)%nat && (nat_of_ascii d =? 176)%nat.

Definition is_kelvin_sign (c d e : ascii) : bool :=
  (nat_of_ascii c =? 226)%nat && (nat_of_ascii d =? 132)%nat
  && (nat_of_ascii e =? 170)%nat.

(** [String.prototype.toLowerCase], code point by code point.  The ASCII
    letters A-Z become a-z; the Kelvin sign becomes [k]; U+0130 becomes [i]
    followed by U+0307 (bytes CC 87).  These are all the code points whose
    lowercase form has an ASCII character in it.  Any other code point
    outside ASCII has a lowercase form outside ASCII and is kept as it is
    here, which changes no comparison with an ASCII string. *)
Fixpoint toLowerCase (s : string) : string :=
  match s with
  | EmptyString => EmptyString
  | String c s' =>
      match s' with
      | String d s'' =>
          if is_capital_I_dot c d then
            String "i" (String (ascii_of_nat 204) (String (ascii_of_nat 135)
                                                          (toLowerCase s'')))
          else
            match s'' with
            | String e rest =>
                if is_kelvin_sign c d e then String "k" (toLowerCase rest)
                else String (lower_ascii c) (toLowerCase s')
            | EmptyString => String (lower_ascii c) (toLowerCase s')
            end
      | EmptyString => String (lower_ascii c) (toLowerCase s')
      end
  end.

(** [s.split(sep)] for a one-character separator: never empty, and
    [split sep ""] is the one-element array holding the empty string. *)
Fixpoint split (sep : ascii) (s : string) : list string :=
  match s with
  | EmptyString => [EmptyString]
  | String c s' =>
      if Ascii.eqb c sep then EmptyString :: split sep s'
      else match split sep s' with
           | seg :: rest => String c seg :: rest
           | [] => [String c EmptyString]
           end
  end.

(** [arr.splice(-1)]: the array of the removed elements, that is the last
    element alone (nothing for an empty array). *)
Definition splice_last {A : Type} (arr : list A) : list A :=
  skipn (List.length arr - 1) arr.

(** [arr[0]]: [None] stands for [undefined]. *)
Definition index0 {A : Type} (arr : list A) : option A := hd_error arr.

(** [!s] for a string or [undefined]. *)
Definition falsy (s : option string) : bool :=
  match s with
  | None => true
  | Some EmptyString => true
  | Some _ => false
  end.

(** [arr.includes(x)] on an array of strings. *)
Definition includes (arr : list string) (x : string) : bool :=
  existsb (String.eqb x) arr.

(** [n.toString()] for an integral number. *)
Definition of_Z (z : Z) : string := NilZero.string_of_int (Z.to_int z).

End Str.

(* ------------------------------------------------------------------------- *)
(** ** app/_globals/supportedFilesFilters *)

Record SupportedFileType := {
  extensions : list string;
  prettyName : string;
  obsName : string
}.

Definition supportedFiles : list SupportedFileType :=
  [ {| extensions := ["png"; "jpg"; "jpeg"; "tga"; "bmp"];
       prettyName := "Image files";
       obsName := "image_source" |};
    {| extensions := ["mp4"; "ts"; "mov"; "flv"; "mkv"; "avi"; "mp3"; "ogg";
                      "aac"; "wav"; "gif"; "webm"];
       prettyName := "Video files";
       obsName := "ffmpeg_source" |};
    {| extensions := ["txt"];
       prettyName := "Text files";
       obsName := "text_gdiplus" |};
    {| extensions := ["html"];
       prettyName := "HTML files";
       obsName := "browser_source" |} ].

(* ------------------------------------------------------------------------- *)
(** ** Values, engine objects and the world the wrapper runs in *)

(** Primitive JavaScript values, as they occur in settings. *)
Inductive jsval :=
| JUndefined
| JNull
| JBool (b : bool)
| JNum (n : Number.number)
| JStr (s : string).

(** An object literal: its properties in creation order. *)
Definition Settings := list (string * jsval).

(** An engine input (source), as [InputFactory.create] answers it. *)
Record IInput := {
  input_id : string;          (* the source kind, e.g. [image_source] *)
  input_name : string;
  input_settings : Settings;
  input_width : Number.number;
  input_height : Number.number
}.

Record IVec2 := { x : Number.number; y : Number.number }.

Record ISceneItem := {
  source : IInput;
  scale : IVec2;
  position : IVec2;
  rotation : Number.number;
  visible : bool
}.

(** One parameter of a settings sub-category, and the container
    [OBS_settings_getSettings(category).data] is a list of sub-categories. *)
Record SettingsParameter := {
  name : string;
  description : string;
  currentValue : jsval
}.

Record SubCategory := {
  nameSubCategory : string;
  parameters : list SettingsParameter
}.

Definition SettingsContainer := list SubCategory.

(** A thrown [Error]. *)
Inductive exn := Error (message : string).

(** [`${e}`] for a thrown [Error]: [Error.prototype.toString], which gives
    the name alone when the message is empty. *)
Definition exn_to_string (e : exn) : string :=
  match e with
  | Error EmptyString => "Error"
  | Error m => ("Error: " ++ m)%string
  end.

(** The callbacks handed to [setTimeout], one constructor per closure. *)
Inductive Callback :=
| addFile_transition (sceneId : string).

(** Calls that leave the wrapper and act on the engine, the console, the
    timers or the window, in the order they are issued.  Reads of the engine
    ([OBS_settings_getSettings], the answer of [OBS_API_initAPI]) are
    answered from the state and the host and are not recorded. *)
Inductive Event :=
| console_debug (msg : string)
| console_log (msg : string)
| console_error (msg1 msg2 : string)
| IPC_host (uri : string)
| SetWorkingDirectory (dir : string)
| OBS_API_initAPI (locale dataPath version : string)
| OBS_service_connectOutputSignals
| OBS_service_removeCallback
| IPC_disconnect
| InputFactory_create (id name : string) (settings : Settings)
| SceneFactory_create (sceneId : string)
| SceneFactory_fromName (sceneId : string)
| Scene_add (sceneId : string) (input : IInput)
| SceneItem_set_scale (sceneId : string) (input : IInput) (v : IVec2)
| Transition_start (ms : Z) (sceneId : string)
| setTimeout (callback : Callback) (ms : Z)
| OBS_settings_saveSettings (category : string) (settings : SettingsContainer)
| previewWindow_close.

(** Everything the process and the engine decide: paths, the file system,
    random values, the result code of the engine and whether its shutdown
    calls throw. *)
Record Host := {
  dirname : string;
  path_join : string -> string -> string;
  fs_realpathSync : string -> option string;     (* [None]: it throws *)
  uuid_v4 : nat -> string;
  Math_random : nat -> Number.number;
  Number_toString : Number.number -> string;
  initAPI_result : Z;
  removeCallback_throws : option exn;
  disconnect_throws : option exn;
  StringToNumber : string -> Number.number;      (* [ToNumber] of a string *)
  media_size : string -> Settings -> Number.number * Number.number
}.

(** The settings store of the application: the canvas size. *)
Record Store := {
  store_width : Number.number;
  store_height : Number.number
}.

(** The fields of an [OBS] object and of the world around it. *)
Record State := {
  obsInitialized : bool;
  previewWindow : bool;                          (* is a window open *)
  settingsStore : Store;
  engineSettings : list (string * SettingsContainer);
  trace : list Event;
  rng : nat                                      (* random values drawn so far *)
}.

(** *** A state monad with exceptions: the state survives a throw *)

Definition M (S A : Type) : Type := S -> (exn + A) * S.

Definition ret {S A : Type} (a : A) : M S A := fun s => (inr a, s).

Definition bind {S A B : Type} (m : M S A) (k : A -> M S B) : M S B :=
  fun s => match m s with
           | (inr a, s') => k a s'
           | (inl e, s') => (inl e, s')
           end.

Definition throw {S A : Type} (e : exn) : M S A := fun s => (inl e, s).

Definition try_catch {S A : Type} (body : M S A) (handler : exn -> M S A)
    : M S A :=
  fun s => match body s with
           | (inl e, s') => handler e s'
           | r => r
           end.

Definition gets {S A : Type} (f : S -> A) : M S A := fun s => (inr (f s), s).

Definition modify {S : Type} (f : S -> S) : M S unit := fun s => (inr tt, f s).

Declare Scope js_scope.
Delimit Scope js_scope with js.
Notation "x <- m ;; k" := (bind m (fun x => k))
  (at level 61, m at next level, right associativity) : js_scope.
Notation "m ;; k" := (bind m (fun _ => k))
  (at level 61, right associativity) : js_scope.
Local Open Scope js_scope.

Definition set_trace (t : list Event) (s : State) : State :=
  {| obsInitialized := obsInitialized s; previewWindow := previewWindow s;
     settingsStore := settingsStore s; engineSettings := engineSettings s;
     trace := t; rng := rng s |}.

Definition set_obsInitialized (b : bool) (s : State) : State :=
  {| obsInitialized := b; previewWindow := previewWindow s;
     settingsStore := settingsStore s; engineSettings := engineSettings s;
     trace := trace s; rng := rng s |}.

Definition set_rng (n : nat) (s : State) : State :=
  {| obsInitialized := obsInitialized s; previewWindow := previewWindow s;
     settingsStore := settingsStore s; engineSettings := engineSettings s;
     trace := trace s; rng := n |}.

Definition set_engineSettings (es : list (string * SettingsContainer))
    (s : State) : State :=
  {| obsInitialized := obsInitialized s; previewWindow := previewWindow s;
     settingsStore := settingsStore s; engineSettings := es;
     trace := trace s; rng := rng s |}.

(** Issue one call. *)
Definition emit (ev : Event) : M State unit :=
  modify (fun s => set_trace (trace s ++ [ev]) s).

(** Issue a call that the engine may answer by throwing. *)
Definition emit_may_throw (ev : Event) (t : option exn) : M State unit :=
  emit ev ;;
  match t with
  | Some e => throw e
  | None => ret tt
  end.

(** Draw the next random index. *)
Definition fresh : M State nat :=
  n <- gets rng ;;
  modify (set_rng (S n)) ;;
  ret n.

(* ------------------------------------------------------------------------- *)
(** ** worker/obs.ts: the [OBS] class *)

(** [AlignmentOptions] (app/_classes/alignmentOptions). *)
Record AlignmentOptions := {
  opt_alignment : string;
  opt_padding : Number.number;
  opt_scale : string
}.

(** [Slide] (app/_classes/slide): only [filePath] is read. *)
Record Slide := { filePath : string }.

(** The [errorReasons] object literal of [initOBS]. *)
Definition errorReasons : list (string * string) :=
  [ ("-2", "DirectX could not be found on your system. Please install the latest version of DirectX for your machine here <https://www.microsoft.com/en-us/download/details.aspx?id=35?> and try again.");
    ("-5", "Failed to initialize OBS. Your video drivers may be out of date, or Streamlabs OBS may not be supported on your system.") ].

(** [obj[key]] on an object literal with string values. *)
Fixpoint get_property {A : Type} (obj : list (string * A)) (key : string)
    : option A :=
  match obj with
  | [] => None
  | (k, v) :: rest => if String.eqb k key then Some v else get_property rest key
  end.

(** [a || b] where [a] is a string or [undefined]. *)
Definition or_else (a : option string) (b : string) : string :=
  match a with
  | Some v => if Str.falsy a then b else v
  | None => b
  end.

(** [x == y] on primitive values (the abstract equality comparison). *)
Definition bool_to_number (b : bool) : Number.number :=
  if b then Number.of_Z 1 else Number.of_Z 0.

Definition loose_eq (toNumber : string -> Number.number) (a b : jsval) : bool :=
  match a, b with
  | JUndefined, JUndefined | JUndefined, JNull
  | JNull, JUndefined | JNull, JNull => true
  | JNum m, JNum n => Number.eqb m n
  | JStr s, JStr t => String.eqb s t
  | JBool p, JBool q => Bool.eqb p q
  | JNum m, JStr t => Number.eqb m (toNumber t)
  | JStr s, JNum n => Number.eqb (toNumber s) n
  | JBool p, JNum n => Number.eqb (bool_to_number p) n
  | JNum m, JBool q => Number.eqb m (bool_to_number q)
  | JBool p, JStr t => Number.eqb (bool_to_number p) (toNumber t)
  | JStr s, JBool q => Number.eqb (toNumber s) (bool_to_number q)
  | _, _ => false
  end.

Definition set_currentValue (v : jsval) (p : SettingsParameter)
    : SettingsParameter :=
  {| name := name p; description := description p; currentValue := v |}.

Definition set_parameters (ps : list SettingsParameter) (c : SubCategory)
    : SubCategory :=
  {| nameSubCategory := nameSubCategory c; parameters := ps |}.

Definition set_scale (v : IVec2) (i : ISceneItem) : ISceneItem :=
  {| source := source i; scale := v; position := position i;
     rotation := rotation i; visible := visible i |}.

Definition set_position (v : IVec2) (i : ISceneItem) : ISceneItem :=
  {| source := source i; scale := scale i; position := v;
     rotation := rotation i; visible := visible i |}.

(** [subCategory.parameters.forEach(...)] of [setSetting]: every parameter
    named [parameter] hands its value to [oldValue] and takes [value]. *)
Fixpoint setSetting_parameters (parameter : string) (value : jsval)
    (ps : list SettingsParameter) (oldValue : jsval)
    : list SettingsParameter * jsval :=
  match ps with
  | [] => ([], oldValue)
  | param :: rest =>
      if String.eqb (name param) parameter then
        let (rest', old') :=
          setSetting_parameters parameter value rest (currentValue param) in
        (set_currentValue value param :: rest', old')
      else
        let (rest', old') :=
          setSetting_parameters parameter value rest oldValue in
        (param :: rest', old')
  end.

(** [settings.forEach(...)] of [setSetting]. *)
Fixpoint setSetting_subCategories (parameter : string) (value : jsval)
    (cs : SettingsContainer) (oldValue : jsval) : SettingsContainer * jsval :=
  match cs with
  | [] => ([], oldValue)
  | subCategory :: rest =>
      let (ps', old1) :=
        setSetting_parameters parameter value (parameters subCategory) oldValue in
      let (rest', old2) :=
        setSetting_subCategories parameter value rest old1 in
      (set_parameters ps' subCategory :: rest', old2)
  end.

(** The engine stores the container of a category on save. *)
Fixpoint put_property {A : Type} (obj : list (string * A)) (key : string)
    (v : A) : list (string * A) :=
  match obj with
  | [] => [(key, v)]
  | (k, w) :: rest =>
      if String.eqb k key then (k, v) :: rest
      else (k, w) :: put_property rest key v
  end.

Section OBS.

Variable host : Host.

(** [shutdown()]: a no-op answering [false] while the object is not
    initialized. *)
Definition shutdown : M State bool :=
  initialized <- gets obsInitialized ;;
  if negb initialized then
    emit (console_debug "OBS is already shut down!") ;;
    ret false
  else
    emit (console_debug "Shutting down OBS...") ;;
    try_catch
      (emit_may_throw OBS_service_removeCallback (removeCallback_throws host) ;;
       emit_may_throw IPC_disconnect (disconnect_throws host) ;;
       modify (set_obsInitialized false))
      (fun e => throw (Error ("Exception when shutting down OBS process"
                              ++ exn_to_string e)%string)) ;;
    emit (console_debug "OBS shutdown successfully") ;;
    win <- gets previewWindow ;;
    (if win then emit previewWindow_close else ret tt) ;;
    ret true.

(** [initOBS()]: [initAPI_result host] is what [OBS_API_initAPI] answers. *)
Definition initOBS : M State unit :=
  emit (console_debug "Initializing OBS...") ;;
  emit (IPC_host "obs-studio-node-example") ;;
  emit (SetWorkingDirectory
          (path_join host (dirname host) "../../node_modules/obs-studio-node")) ;;
  let obsDataPath := path_join host (dirname host) "../../osn-data" in
  emit (OBS_API_initAPI "en-US" obsDataPath "1.0.0") ;;
  let initResult := initAPI_result host in
  if negb (initResult =? 0)%Z then
    let errorMessage :=
      or_else (get_property errorReasons (Str.of_Z initResult))
              ("An unknown error #" ++ Str.of_Z initResult
               ++ " was encountered while initializing OBS.")%string in
    emit (console_error "OBS init failure" errorMessage) ;;
    shutdown ;;
    throw (Error errorMessage)
  else
    emit OBS_service_connectOutputSignals ;;
    emit (console_debug "OBS initialized").

(** [alignItem(sceneItem, options)] assigns to the fields of the item it is
    given; the result is that item after the call. *)
Definition alignItem (sceneItem : ISceneItem) (options : AlignmentOptions)
    : M State ISceneItem :=
  width <- gets (fun s => store_width (settingsStore s)) ;;
  height <- gets (fun s => store_height (settingsStore s)) ;;
  let smallestSide := if Number.ltb width height then width else height in
  let scale :=
    Number.div
      (Number.floor
         (Number.mul (Number.div smallestSide (input_width (source sceneItem)))
                     (Number.of_Z 100)))
      (Number.of_Z 100) in
  let sceneItem := set_scale {| x := scale; y := scale |} sceneItem in
  if Number.ltb width height then
    ret (set_position
           {| x := Number.of_Z 0;
              y := Number.div
                     (Number.sub height
                        (Number.mul (input_height (source sceneItem)) scale))
                     (Number.of_Z 2) |}
           sceneItem)
  else if Number.ltb height width then
    ret (set_position
           {| x := Number.div
                     (Number.sub width
                        (Number.mul (input_width (source sceneItem)) scale))
                     (Number.of_Z 2);
              y := Number.of_Z 0 |}
           sceneItem)
  else ret sceneItem.

(** [osn.InputFactory.create(type, id, settings)]. *)
Definition InputFactory_create_call (type id : string) (settings : Settings)
    : M State IInput :=
  emit (InputFactory_create type id settings) ;;
  ret {| input_id := type; input_name := id; input_settings := settings;
         input_width := fst (media_size host type settings);
         input_height := snd (media_size host type settings) |}.

(** [options] is [{}] at every call site: [sourceId] is its only property
    that is read. *)
Definition createSource (name type : string) (settings : Settings)
    (options_sourceId : option string) : M State IInput :=
  id <- (match options_sourceId with
         | Some sid => if Str.falsy options_sourceId
                       then n <- fresh ;; ret (type ++ "_" ++ uuid_v4 host n)%string
                       else ret sid
         | None => n <- fresh ;; ret (type ++ "_" ++ uuid_v4 host n)%string
         end) ;;
  let obsInputSettings := settings in
  InputFactory_create_call type id obsInputSettings.

(** [transitionTo(sceneName)]. *)
Definition transitionTo (sceneName : string) : M State unit :=
  emit (SceneFactory_fromName sceneName) ;;
  emit (Transition_start 300 sceneName).

(** What a timer runs when it fires. *)
Definition run_callback (cb : Callback) : M State unit :=
  match cb with
  | addFile_transition sceneId =>
      emit (console_log "transition") ;;
      transitionTo sceneId
  end.

(** The settings object [addFile] builds for a source kind; [None] is the
    [null] it starts from. *)
Definition addFile_settings (obsName : string) (filePath : string)
    : option Settings :=
  if String.eqb obsName "image_source" then
    Some [("file", JStr filePath)]
  else if String.eqb obsName "browser_source" then
    Some [("is_local_file", JBool true); ("local_file", JStr filePath)]
  else if String.eqb obsName "ffmpeg_source" then
    Some [("is_local_file", JBool true); ("local_file", JStr filePath);
          ("looping", JBool true)]
  else if String.eqb obsName "text_gdiplus" then
    Some [("read_from_file", JBool true); ("file", JStr filePath)]
  else None.

(** The [for (const type of supportedFiles)] loop of [addFile]. *)
Fixpoint addFile_loop (slide : Slide) (ext : string)
    (types : list SupportedFileType) : M State (option IInput) :=
  match types with
  | [] => ret None
  | type :: rest =>
      if negb (Str.includes (extensions type) ext) then
        addFile_loop slide ext rest
      else
        match addFile_settings (obsName type) (filePath slide) with
        | Some settings =>
            s <- createSource "sourceId" (obsName type) settings None ;;
            n <- fresh ;;
            let sceneId := Number_toString host (Math_random host n) in
            emit (SceneFactory_create sceneId) ;;
            emit (Scene_add sceneId s) ;;
            emit (console_log "[object Object]") ;;
            emit (setTimeout (addFile_transition sceneId) 1000) ;;
            ret (Some s)
        | None => addFile_loop slide ext rest
        end
  end.

(** [None] is the [null] result. *)
Definition addFile (slide : Slide) : M State (option IInput) :=
  match fs_realpathSync host (filePath slide) with
  | None => throw (Error "ENOENT: no such file or directory")
  | Some realpath =>
      let ext := Str.index0 (Str.splice_last (Str.split "." realpath)) in
      match ext with
      | None => ret None
      | Some e =>
          if Str.falsy ext then ret None
          else
            let ext := Str.toLowerCase e in
            let filename :=
              Str.index0 (Str.splice_last (Str.split "\" (filePath slide))) in
            addFile_loop slide ext supportedFiles
      end
  end.

(** [setSetting(category, parameter, value)]: the container is what the
    engine answers to [OBS_settings_getSettings(category)], a read that the
    trace does not record; the trace records the save.  A category the
    engine does not hold is taken to have no [data] to iterate. *)
Definition setSetting (category parameter : string) (value : jsval)
    : M State unit :=
  data <- gets (fun s => get_property (engineSettings s) category) ;;
  match data with
  | None =>
      throw (Error "Cannot read property 'forEach' of undefined")
  | Some settings =>
      let (settings, oldValue) :=
        setSetting_subCategories parameter value settings JUndefined in
      if negb (loose_eq (StringToNumber host) value oldValue) then
        emit (OBS_settings_saveSettings category settings) ;;
        modify (fun s => set_engineSettings
                           (put_property (engineSettings s) category settings) s)
      else ret tt
  end.

End OBS.

(* ------------------------------------------------------------------------- *)
(** ** The older [OBS] class: [addFile] over an inline [SUPPORTED_EXT] *)

Module LegacyOBS.

(** The fields of the older class that [addFile] touches, and the world. *)
Record State := {
  scenes : list string;                  (* the names of [this.scenes] *)
  videoScaleFactor : Number.number;
  trace : list Event;
  rng : nat
}.

Definition set_trace (t : list Event) (s : State) : State :=
  {| scenes := scenes s; videoScaleFactor := videoScaleFactor s;
     trace := t; rng := rng s |}.

Definition set_rng (n : nat) (s : State) : State :=
  {| scenes := scenes s; videoScaleFactor := videoScaleFactor s;
     trace := trace s; rng := n |}.

Definition emit (ev : Event) : M State unit :=
  modify (fun s => set_trace (trace s ++ [ev]) s).

Definition fresh : M State nat :=
  n <- gets rng ;;
  modify (set_rng (S n)) ;;
  ret n.

(** The object literal of [addFile]; [Object.keys] lists its keys in the
    order they are written. *)
Definition SUPPORTED_EXT : list (string * list string) :=
  [ ("image_source", ["png"; "jpg"; "jpeg"; "tga"; "bmp"]);
    ("ffmpeg_source", ["mp4"; "ts"; "mov"; "flv"; "mkv"; "avi"; "mp3"; "ogg";
                       "aac"; "wav"; "gif"; "webm"]);
    ("browser_source", ["html"]);
    ("text_gdiplus", ["txt"]) ].

Definition Object_keys {A : Type} (obj : list (string * A)) : list string :=
  map fst obj.

Section OBS.

Variable host : Host.

Definition InputFactory_create_call (type id : string) (settings : Settings)
    : M State IInput :=
  emit (InputFactory_create type id settings) ;;
  ret {| input_id := type; input_name := id; input_settings := settings;
         input_width := fst (media_size host type settings);
         input_height := snd (media_size host type settings) |}.

Definition createSource (name type : string) (settings : Settings)
    (options_sourceId : option string) : M State IInput :=
  id <- (match options_sourceId with
         | Some sid => if Str.falsy options_sourceId
                       then n <- fresh ;; ret (type ++ "_" ++ uuid_v4 host n)%string
                       else ret sid
         | None => n <- fresh ;; ret (type ++ "_" ++ uuid_v4 host n)%string
         end) ;;
  let obsInputSettings := settings in
  InputFactory_create_call type id obsInputSettings.

Definition addFile_settings (type : string) (path : string)
    : option Settings :=
  if String.eqb type "image_source" then
    Some [("file", JStr path)]
  else if String.eqb type "browser_source" then
    Some [("is_local_file", JBool true); ("local_file", JStr path)]
  else if String.eqb type "ffmpeg_source" then
    Some [("is_local_file", JBool true); ("local_file", JStr path);
          ("looping", JBool true)]
  else if String.eqb type "text_gdiplus" then
    Some [("read_from_file", JBool true); ("file", JStr path)]
  else None.

(** The [for (const type of types)] loop. *)
Fixpoint addFile_loop (path : string) (filename : option string)
    (ext : string) (types : list string) : M State (option IInput) :=
  match types with
  | [] => ret None
  | type :: rest =>
      match get_property SUPPORTED_EXT type with
      | None => throw (Error "Cannot read property 'includes' of undefined")
      | Some exts =>
          if negb (Str.includes exts ext) then
            addFile_loop path filename ext rest
          else
            match addFile_settings type path with
            | Some settings =>
                s <- createSource
                       (match filename with Some f => f | None => "undefined" end)
                       type settings None ;;
                scene0 <- gets (fun st => hd_error (scenes st)) ;;
                match scene0 with
                | None => throw (Error "Cannot read property 'add' of undefined")
                | Some scene =>
                    emit (Scene_add scene s) ;;
                    factor <- gets videoScaleFactor ;;
                    emit (SceneItem_set_scale scene s
                            {| x := Number.div (Number.of_Z 1) factor;
                               y := Number.div (Number.of_Z 1) factor |}) ;;
                    ret (Some s)
                end
            | None => addFile_loop path filename ext rest
            end
      end
  end.

Definition addFile (path : string) : M State (option IInput) :=
  emit (console_log ("add " ++ path)%string) ;;
  match fs_realpathSync host path with
  | None => throw (Error "ENOENT: no such file or directory")
  | Some realpath =>
      let ext := Str.index0 (Str.splice_last (Str.split "." realpath)) in
      match ext with
      | None => ret None
      | Some e =>
          if Str.falsy ext then ret None
          else
            let ext := Str.toLowerCase e in
            let filename :=
              Str.index0 (Str.splice_last (Str.split "\" path)) in
            let types := Object_keys SUPPORTED_EXT in
            addFile_loop path filename ext types
      end
  end.

End OBS.

End LegacyOBS.

(* ------------------------------------------------------------------------- *)
(** ** MobileService: the device list behind [/connect] and [/disconnect] *)

Module MobileService.

Record Device := {
  model : string;
  deviceType : string;
  os : string;
  osVersion : string;
  sdkVersion : string;
  language : string;
  manufacturer : string;
  uuid : string;
  region : string
}.

(** An element of [connectedMobiles]; [device] is whatever the request
    body held, [None] when the body had no such property. *)
Record ConnectedMobile := { device : option Device }.

(** The parsed body: [JSON.parse(data || "null")]. *)
Record JsonBody := {
  body_device : option Device;
  body_deviceId : jsval
}.

Record Request := { jsonBody : option JsonBody }.   (* [None]: [null] *)

Inductive Response := success_true.                 (* [{ success: true }] *)

Record State := {
  connectedMobiles : list ConnectedMobile;
  expressRunning : bool
}.

Definition set_connectedMobiles (l : list ConnectedMobile) (s : State)
    : State :=
  {| connectedMobiles := l; expressRunning := expressRunning s |}.

(** [uuid !== deviceId]. *)
Definition strict_neq (uuid : string) (deviceId : jsval) : bool :=
  match deviceId with
  | JStr d => negb (String.eqb uuid d)
  | _ => true
  end.

(** [connectedMobiles.filter((d) => d.device.uuid !== req.jsonBody.deviceId)]:
    for each element, reading [uuid] of an absent device throws, then
    reading [deviceId] of a [null] body throws. *)
Fixpoint filter_mobiles (body : option JsonBody) (l : list ConnectedMobile)
    : exn + list ConnectedMobile :=
  match l with
  | [] => inr []
  | d :: rest =>
      match device d with
      | None => inl (Error "Cannot read property 'uuid' of undefined")
      | Some dev =>
          match body with
          | None => inl (Error "Cannot read property 'deviceId' of null")
          | Some b =>
              match filter_mobiles body rest with
              | inl e => inl e
              | inr rest' =>
                  inr (if strict_neq (uuid dev) (body_deviceId b)
                       then d :: rest' else rest')
              end
          end
      end
  end.

(** [r.post("/connect", ...)]. *)
Definition connect (req : Request) : M State Response :=
  match jsonBody req with
  | None => throw (Error "Cannot read property 'device' of null")
  | Some body =>
      modify (fun s => set_connectedMobiles
                         (connectedMobiles s ++ [{| device := body_device body |}]) s) ;;
      ret success_true
  end.

(** [r.post("/disconnect", ...)]. *)
Definition disconnect (req : Request) : M State Response :=
  l <- gets connectedMobiles ;;
  match filter_mobiles (jsonBody req) l with
  | inl e => throw e
  | inr l' => modify (set_connectedMobiles l') ;; ret success_true
  end.

End MobileService.

(* ------------------------------------------------------------------------- *)
(** ** app/_globals/supportedFilesFilters: the filters of the file dialog *)

Module SupportedFilesFilters.

(** [f.extensions] of a table entry, named apart from the property of the
    same name that a filter has. *)
Definition file_extensions (f : SupportedFileType) : list string := extensions f.

Record FileFilter := {
  name : string;
  extensions : list string
}.

(** [files.map((f) => ({ name: f.prettyName, extensions: f.extensions }))],
    then [unshift] of the filter "All supported files", whose extensions are
    [filters.reduce((p, c) => { p.push(...c.extensions); return p; }, [])]
    taken over the mapped filters before the [unshift]. *)
Definition filters_of (files : list SupportedFileType) : list FileFilter :=
  let filters :=
    map (fun f => {| name := prettyName f;
                     extensions := file_extensions f |}) files in
  {| name := "All supported files";
     extensions := fold_left (fun p c => p ++ extensions c) filters [] |}
  :: filters.

Definition supportedFilesFilters : list FileFilter := filters_of supportedFiles.

End SupportedFilesFilters.

(* ------------------------------------------------------------------------- *)
(** ** Vocabulary of the statements *)

Fixpoint has_char (c : ascii) (s : string) : bool :=
  match s with
  | EmptyString => false
  | String a s' => Ascii.eqb a c || has_char c s'
  end.

(** A path holds a separator when it has a slash or a backslash in it, as
    every absolute path does. *)
Definition has_separator (s : string) : bool :=
  has_char "/" s || has_char "\" s.

(** All the extensions of the table, in declaration order. *)
Definition all_extensions : list string := flat_map extensions supportedFiles.

(** The second entry of the table, by its content. *)
Definition video_files : SupportedFileType :=
  {| extensions := ["mp4"; "ts"; "mov"; "flv"; "mkv"; "avi"; "mp3"; "ogg";
                    "aac"; "wav"; "gif"; "webm"];
     prettyName := "Video files";
     obsName := "ffmpeg_source" |}.

(** What [addFile] issues, in order, once a source kind is selected. *)
Definition addFile_calls (kind id : string) (settings : Settings)
    (sceneId : string) (s : IInput) : list Event :=
  [ InputFactory_create kind id settings;
    SceneFactory_create sceneId;
    Scene_add sceneId s;
    console_log "[object Object]";
    setTimeout (addFile_transition sceneId) 1000 ].

(** A host and a state to evaluate the wrapper on: every path resolves to
    itself, the engine answers [-5] on initialization, the canvas is
    1920x1080. *)
Definition example_host : Host :=
  {| dirname := "/app/dist";
     path_join := fun a b => (a ++ "/" ++ b)%string;
     fs_realpathSync := fun p => Some p;
     uuid_v4 := fun n => ("uuid-" ++ Str.of_Z (Z.of_nat n))%string;
     Math_random := fun n => Number.div (Number.of_Z 1) (Number.of_Z (Z.of_nat n + 2));
     Number_toString := fun r => match r with
                                 | S754_finite _ m _ => ("0." ++ Str.of_Z (Zpos m))%string
                                 | _ => "0"
                                 end;
     initAPI_result := (-5)%Z;
     removeCallback_throws := None;
     disconnect_throws := None;
     StringToNumber := fun _ => S754_nan;
     media_size := fun _ _ => (Number.of_Z 0, Number.of_Z 0) |}.

Definition example_state : State :=
  {| obsInitialized := false;
     previewWindow := false;
     settingsStore := {| store_width := Number.of_Z 1920;
                         store_height := Number.of_Z 1080 |};
     engineSettings :=
       [("Output",
         [ {| nameSubCategory := "Untitled";
              parameters := [ {| name := "Mode"; description := "Output Mode";
                                 currentValue := JStr "Simple" |} ] |};
           {| nameSubCategory := "Recording";
              parameters := [ {| name := "RecFormat"; description := "Recording Format";
                                 currentValue := JStr "flv" |} ] |} ])];
     trace := [];
     rng := 0 |}.

(** The scale of the layout aligner:
    [floor((smallest / itemNativeWidth) * 100) / 100]. *)
Definition fit_scale (smallest itemNativeWidth : Number.number) : Number.number :=
  Number.div
    (Number.floor (Number.mul (Number.div smallest itemNativeWidth)
                              (Number.of_Z 100)))
    (Number.of_Z 100).

(** The number that the literal [2.16] denotes: the binary64 number nearest
    to 216/100, that is 4863887597560136 * 2^-51. *)
Definition literal_2_16 : Number.number :=
  S754_finite false 4863887597560136 (-51).

(** [example_state] with another canvas size. *)
Definition with_canvas (w h : Z) : State :=
  {| obsInitialized := obsInitialized example_state;
     previewWindow := previewWindow example_state;
     settingsStore := {| store_width := Number.of_Z w;
                         store_height := Number.of_Z h |};
     engineSettings := engineSettings example_state;
     trace := trace example_state;
     rng := rng example_state |}.

(** A scene item as [scene.add] answers it, for a source of 500x500. *)
Definition example_item : ISceneItem :=
  {| source := {| input_id := "image_source"; input_name := "logo";
                  input_settings := [("file", JStr "/app/assets/icons/favicon.png")];
                  input_width := Number.of_Z 500;
                  input_height := Number.of_Z 500 |};
     scale := {| x := Number.of_Z 1; y := Number.of_Z 1 |};
     position := {| x := Number.of_Z 0; y := Number.of_Z 0 |};
     rotation := Number.of_Z 0;
     visible := true |}.

Definition example_options : AlignmentOptions :=
  {| opt_alignment := "center"; opt_padding := Number.of_Z 50;
     opt_scale := "fit" |}.

(** The message of an initialization failure, by result code: the two
    known codes have a message of their own, any other code a generic one
    that holds the code. *)
Definition init_failure_message (code : Z) : string :=
  if (code =? -2)%Z then
    "DirectX could not be found on your system. Please install the latest version of DirectX for your machine here <https://www.microsoft.com/en-us/download/details.aspx?id=35?> and try again."
  else if (code =? -5)%Z then
    "Failed to initialize OBS. Your video drivers may be out of date, or Streamlabs OBS may not be supported on your system."
  else
    ("An unknown error #" ++ Str.of_Z code
     ++ " was encountered while initializing OBS.")%string.

(** The calls [initOBS] issues up to and including the initialization of the
    engine. *)
Definition initOBS_prologue (host : Host) : list Event :=
  [ console_debug "Initializing OBS...";
    IPC_host "obs-studio-node-example";
    SetWorkingDirectory
      (path_join host (dirname host) "../../node_modules/obs-studio-node");
    OBS_API_initAPI "en-US" (path_join host (dirname host) "../../osn-data")
                    "1.0.0" ].

(** The values the parameters named [parameter] hold, in the order the
    container lists them. *)
Definition current_values (parameter : string) (c : SettingsContainer)
    : list jsval :=
  flat_map
    (fun sub =>
       map currentValue
           (filter (fun p => String.eqb (name p) parameter) (parameters sub)))
    c.

(** The current value of [parameter]: the one [setSetting] compares with,
    [undefined] when the container has no such parameter. *)
Definition current_value (parameter : string) (c : SettingsContainer) : jsval :=
  last (current_values parameter c) JUndefined.

(** The container with [value] as the value of [parameter]. *)
Definition update_parameter (parameter : string) (value : jsval)
    (p : SettingsParameter) : SettingsParameter :=
  if String.eqb (name p) parameter then set_currentValue value p else p.

Definition update_container (parameter : string) (value : jsval)
    (c : SettingsContainer) : SettingsContainer :=
  map (fun sub =>
         set_parameters (map (update_parameter parameter value) (parameters sub))
                        sub)
      c.

(** Is this element of the device list a device of UUID [a]. *)
Definition has_uuid (a : string) (d : MobileService.ConnectedMobile) : bool :=
  match MobileService.device d with
  | Some dev => String.eqb (MobileService.uuid dev) a
  | None => false
  end.

(** The request of [POST /connect] for a device, and of [POST /disconnect]
    for a device id. *)
Definition connect_request (dev : MobileService.Device) : MobileService.Request :=
  {| MobileService.jsonBody :=
       Some {| MobileService.body_device := Some dev;
               MobileService.body_deviceId := JUndefined |} |}.

Definition disconnect_request (a : string) : MobileService.Request :=
  {| MobileService.jsonBody :=
       Some {| MobileService.body_device := None;
               MobileService.body_deviceId := JStr a |} |}.

Definition example_device (a : string) : MobileService.Device :=
  {| MobileService.model := "Pixel 4"; MobileService.deviceType := "Phone";
     MobileService.os := "Android"; MobileService.osVersion := "11";
     MobileService.sdkVersion := "30"; MobileService.language := "en";
     MobileService.manufacturer := "Google"; MobileService.uuid := a;
     MobileService.region := "US" |}.

(** A service that holds the given devices. *)
Definition service_with (devs : list MobileService.Device) : MobileService.State :=
  {| MobileService.connectedMobiles :=
       map (fun d => {| MobileService.device := Some d |}) devs;
     MobileService.expressRunning := true |}.

(** The sources a trace creates: kind, name and settings of every
    [InputFactory.create], in order. *)
Definition created_inputs (tr : list Event) : list (string * string * Settings) :=
  flat_map (fun ev => match ev with
                      | InputFactory_create kind id settings => [(kind, id, settings)]
                      | _ => []
                      end) tr.

(** The source to create for a lowercased extension, read off the table:
    none when no entry holds it. *)
Definition source_for (host : Host) (path ext : string) (n : nat)
    : list (string * string * Settings) :=
  match find (fun t => Str.includes (extensions t) ext) supportedFiles with
  | Some t =>
      match addFile_settings (obsName t) path with
      | Some settings =>
          [(obsName t, (obsName t ++ "_" ++ uuid_v4 host n)%string, settings)]
      | None => []
      end
  | None => []
  end.

Definition example_legacy_state : LegacyOBS.State :=
  {| LegacyOBS.scenes := ["test-scene"];
     LegacyOBS.videoScaleFactor := Number.of_Z 1;
     LegacyOBS.trace := [];
     LegacyOBS.rng := 0 |}.

(** An initialized object with its preview window open. *)
Definition initialized_state : State :=
  {| obsInitialized := true;
     previewWindow := true;
     settingsStore := settingsStore example_state;
     engineSettings := engineSettings example_state;
     trace := [];
     rng := 0 |}.

(** [example_host] with an engine whose [OBS_service_removeCallback]
    throws. *)
Definition failing_host : Host :=
  {| dirname := dirname example_host;
     path_join := path_join example_host;
     fs_realpathSync := fs_realpathSync example_host;
     uuid_v4 := uuid_v4 example_host;
     Math_random := Math_random example_host;
     Number_toString := Number_toString example_host;
     initAPI_result := initAPI_result example_host;
     removeCallback_throws := Some (Error "IPC connection lost");
     disconnect_throws := None;
     StringToNumber := StringToNumber example_host;
     media_size := media_size example_host |}.

(** A scene item whose source has no size yet (0x0), as a media source has
    before it is loaded. *)
Definition unloaded_item : ISceneItem :=
  {| source := {| input_id := "ffmpeg_source"; input_name := "ffmpeg_source_uuid-0";
                  input_settings := [("is_local_file", JBool true);
                                     ("local_file", JStr "C:\shows\Intro.MP4");
                                     ("looping", JBool true)];
                  input_width := Number.of_Z 0;
                  input_height := Number.of_Z 0 |};
     scale := {| x := Number.of_Z 1; y := Number.of_Z 1 |};
     position := {| x := Number.of_Z 0; y := Number.of_Z 0 |};
     rotation := Number.of_Z 0;
     visible := true |}.

(** [example_host] where [link.txt] is a link to a video. *)
Definition linking_host : Host :=
  {| dirname := dirname example_host;
     path_join := path_join example_host;
     fs_realpathSync := fun p => if String.eqb p "/shows/link.txt"
                                 then Some "/media/v1.2/clip.final.MKV"
                                 else Some p;
     uuid_v4 := uuid_v4 example_host;
     Math_random := Math_random example_host;
     Number_toString := Number_toString example_host;
     initAPI_result := initAPI_result example_host;
     removeCallback_throws := None;
     disconnect_throws := None;
     StringToNumber := StringToNumber example_host;
     media_size := media_size example_host |}.

(** A request whose body did not parse to an object ([null]). *)
Definition null_request : MobileService.Request :=
  {| MobileService.jsonBody := None |}.

(** Does this element of the device list survive [/disconnect] with this
    device id. *)
Definition survives (deviceId : jsval) (d : MobileService.ConnectedMobile) : bool :=
  match MobileService.device d with
  | Some dev => MobileService.strict_neq (MobileService.uuid dev) deviceId
  | None => true
  end.

(** The timers a trace arms: callback and delay of every [setTimeout], in
    order. *)
Definition armed_timers (tr : list Event) : list (Callback * Z) :=
  flat_map (fun ev => match ev with
                      | setTimeout callback ms => [(callback, ms)]
                      | _ => []
                      end) tr.

(** [example_host] on a file system where [/gone/notes.] does not exist:
    [fs.realpathSync] throws for it. *)
Definition unresolving_host : Host :=
  {| dirname := dirname example_host;
     path_join := path_join example_host;
     fs_realpathSync := fun p => if String.eqb p "/gone/notes." then None
                                 else Some p;
     uuid_v4 := uuid_v4 example_host;
     Math_random := Math_random example_host;
     Number_toString := Number_toString example_host;
     initAPI_result := initAPI_result example_host;
     removeCallback_throws := None;
     disconnect_throws := None;
     StringToNumber := StringToNumber example_host;
     media_size := media_size example_host |}.

(** [n] is the floor of [x]: for a finite [x] with a fractional part
    (negative exponent) it is the number of the integer [Qfloor] of the
    rational value of [x]; a finite [x] with a non-negative exponent is an
    integer already, and so are the zeros; infinities and NaN are left. *)
Definition is_floor_of (x n : Number.number) : Prop :=
  match x with
  | S754_finite s m e =>
      exists v, Number.to_Q x = Some v /\
                if (0 <=? e)%Z
                then n = x /\ v = inject_Z (Qfloor v)
                else n = Number.of_Z (Qfloor v)
  | _ => n = x
  end.

(** The number that the literal [1.66] denotes: 7475975381435023 * 2^-52. *)
Definition literal_1_66 : Number.number :=
  S754_finite false 7475975381435023 (-52).

(** The number that the literal [1.67] denotes. *)
Definition literal_1_67 : Number.number :=
  S754_finite false 7521011377708728 (-52).

(* ========================================================================= *)
(** * Properties *)

(** ** Strings and the table *)

Lemma split_not_nil (sep : ascii) (s : string) : Str.split sep s <> [].
Proof.
  induction s as [|c s IH]; simpl.
  - discriminate.
  - destruct (Ascii.eqb c sep); [discriminate|].
    destruct (Str.split sep s); [contradiction|discriminate].
Qed.

Lemma splice_last_last {A : Type} (arr : list A) (d : A) :
  arr <> [] -> Str.splice_last arr = [last arr d].
Proof.
  unfold Str.splice_last.
  induction arr as [|a arr IH]; [contradiction|intros _].
  destruct arr as [|b arr]; [reflexivity|].
  specialize (IH ltac:(discriminate)).
  replace (List.length (a :: b :: arr) - 1)%nat
    with (S (List.length (b :: arr) - 1)) by (simpl; lia).
  rewrite skipn_cons, IH. reflexivity.
Qed.

(** The extension [addFile] reads is always defined: it is the text after
    the last dot, or the whole path when it has no dot. *)
Lemma extension_defined (realpath : string) :
  Str.index0 (Str.splice_last (Str.split "." realpath))
  = Some (last (Str.split "." realpath) EmptyString).
Proof.
  rewrite (splice_last_last _ EmptyString) by apply split_not_nil.
  reflexivity.
Qed.

Lemma split_no_sep (sep : ascii) (s : string) :
  has_char sep s = false -> Str.split sep s = [s].
Proof.
  induction s as [|c s IH]; simpl; [reflexivity|].
  intros H. apply orb_false_iff in H as [Hc Hs].
  rewrite Hc, (IH Hs). reflexivity.
Qed.

Lemma includes_In (arr : list string) (v : string) :
  Str.includes arr v = true <-> In v arr.
Proof.
  unfold Str.includes. rewrite existsb_exists. split.
  - intros [w [Hin Heq]]. apply String.eqb_eq in Heq. now subst.
  - intros Hin. exists v. split; [assumption|apply String.eqb_refl].
Qed.

Lemma lower_ascii_separator (c a : ascii) :
  (c = "/" \/ c = "\")%char -> Str.lower_ascii a = c -> a = c.
Proof.
  intros Hc H.
  destruct a as [[] [] [] [] [] [] [] []];
    destruct Hc; subst c; vm_compute in H; try discriminate; reflexivity.
Qed.

Lemma has_char_toLowerCase_bounded (c : ascii) (n : nat) :
  (c = "/" \/ c = "\")%char ->
  forall s, (String.length s <= n)%nat ->
            has_char c (Str.toLowerCase s) = has_char c s.
Proof.
  intros Hc. induction n as [|n IH]; intros s Hlen.
  - destruct s; [reflexivity|cbn in Hlen; lia].
  - assert (Hlow : forall a, Ascii.eqb (Str.lower_ascii a) c = Ascii.eqb a c).
    { intros a. destruct (Ascii.eqb_spec (Str.lower_ascii a) c) as [E|E].
      - apply (lower_ascii_separator c a Hc) in E. subst.
        symmetry. apply Ascii.eqb_refl.
      - destruct (Ascii.eqb_spec a c) as [E'|E']; [|reflexivity].
        subst a. exfalso. apply E. destruct Hc; subst c; reflexivity. }
    assert (Hplain : forall a s', (String.length s' <= n)%nat ->
               has_char c (String (Str.lower_ascii a) (Str.toLowerCase s'))
               = has_char c (String a s')).
    { intros a s' Hs'. cbn [has_char]. now rewrite Hlow, (IH s' Hs'). }
    destruct s as [|a s']; [reflexivity|]. cbn [String.length] in Hlen.
    destruct s' as [|d s'']; [apply Hplain; cbn; lia|].
    cbn [String.length] in Hlen. cbn [Str.toLowerCase].
    destruct (Str.is_capital_I_dot a d) eqn:Ei.
    + unfold Str.is_capital_I_dot in Ei. apply andb_true_iff in Ei as [Ea Ed].
      apply Nat.eqb_eq in Ea, Ed.
      apply (f_equal ascii_of_nat) in Ea, Ed.
      rewrite ascii_nat_embedding in Ea, Ed. subst a d.
      cbn [has_char]. rewrite (IH s'') by lia.
      destruct Hc; subst c; reflexivity.
    + destruct s'' as [|e rest]; [apply (Hplain a (String d EmptyString)); cbn; lia|].
      cbn [String.length] in Hlen.
      destruct (Str.is_kelvin_sign a d e) eqn:Ek.
      * unfold Str.is_kelvin_sign in Ek.
        apply andb_true_iff in Ek as [Ek Ee]. apply andb_true_iff in Ek as [Ea Ed].
        apply Nat.eqb_eq in Ea, Ed, Ee.
        apply (f_equal ascii_of_nat) in Ea, Ed, Ee.
        rewrite ascii_nat_embedding in Ea, Ed, Ee. subst a d e.
        cbn [has_char]. rewrite (IH rest) by lia.
        destruct Hc; subst c; reflexivity.
      * apply (Hplain a (String d (String e rest))). cbn; lia.
Qed.

Lemma has_char_toLowerCase (c : ascii) (s : string) :
  (c = "/" \/ c = "\")%char ->
  has_char c (Str.toLowerCase s) = has_char c s.
Proof.
  intros Hc. now apply (has_char_toLowerCase_bounded c (String.length s) Hc).
Qed.

Lemma table_member (type : SupportedFileType) (ext : string) :
  In type supportedFiles -> Str.includes (extensions type) ext = true ->
  In ext all_extensions.
Proof.
  intros Ht He. apply includes_In in He.
  unfold all_extensions. apply in_flat_map. exists type. split; assumption.
Qed.

Lemma table_no_separator (ext : string) :
  In ext all_extensions -> has_separator ext = false.
Proof.
  intros H. vm_compute in H.
  repeat (destruct H as [H|H]; [subst ext; reflexivity|]). contradiction.
Qed.

Lemma all_extensions_cases (ext : string) :
  In ext all_extensions ->
  In ext ["png"; "jpg"; "jpeg"; "tga"; "bmp"; "mp4"; "ts"; "mov"; "flv"; "mkv";
          "avi"; "mp3"; "ogg"; "aac"; "wav"; "gif"; "webm"; "txt"; "html"].
Proof. intros H. exact H. Qed.

(** An extension of the table is found in one entry only. *)
Lemma table_lookup_unique (t1 t2 : SupportedFileType) (ext : string) :
  In t1 supportedFiles -> In t2 supportedFiles ->
  Str.includes (extensions t1) ext = true ->
  Str.includes (extensions t2) ext = true ->
  t1 = t2.
Proof.
  intros H1 H2 E1 E2.
  pose proof (table_member _ _ H1 E1) as Hext. apply all_extensions_cases in Hext.
  simpl in H1, H2.
  repeat (destruct Hext as [Hext|Hext]; [subst ext|]); try contradiction;
    repeat (destruct H1 as [H1|H1]; [subst t1|]); try contradiction;
    try discriminate E1;
    repeat (destruct H2 as [H2|H2]; [subst t2|]); try contradiction;
    try discriminate E2; reflexivity.
Qed.

(** The first entry that holds an extension is the entry that holds it. *)
Lemma table_find (type : SupportedFileType) (ext : string) :
  In type supportedFiles -> Str.includes (extensions type) ext = true ->
  find (fun t => Str.includes (extensions t) ext) supportedFiles = Some type.
Proof.
  intros Ht He.
  destruct (find (fun t => Str.includes (extensions t) ext) supportedFiles)
    as [t|] eqn:F.
  - apply find_some in F as [Hin Hinc].
    f_equal. apply (table_lookup_unique t type ext); assumption.
  - exfalso. apply (find_none _ _ F) in Ht. simpl in Ht. congruence.
Qed.

(** The loop of [addFile] stops at the first entry holding the extension,
    whatever precedes it, and issues the calls for the kind of that entry. *)
Lemma addFile_loop_find (host : Host) (slide : Slide) (ext : string)
    (types : list SupportedFileType) (type : SupportedFileType)
    (settings : Settings) (st : State) :
  find (fun t => Str.includes (extensions t) ext) types = Some type ->
  addFile_settings (obsName type) (filePath slide) = Some settings ->
  let id := (obsName type ++ "_" ++ uuid_v4 host (rng st))%string in
  let s := {| input_id := obsName type; input_name := id;
              input_settings := settings;
              input_width := fst (media_size host (obsName type) settings);
              input_height := snd (media_size host (obsName type) settings) |} in
  let sceneId := Number_toString host (Math_random host (S (rng st))) in
  addFile_loop host slide ext types st
  = (inr (Some s),
     set_rng (S (S (rng st)))
       (set_trace (trace st ++ addFile_calls (obsName type) id settings sceneId s)
                  st)).
Proof.
  intros F Hs. induction types as [|t rest IH]; [discriminate|].
  simpl in F. simpl addFile_loop.
  destruct (Str.includes (extensions t) ext) eqn:E; simpl.
  - injection F as ->. rewrite Hs.
    unfold bind, createSource, fresh, InputFactory_create_call, emit, modify,
      gets, ret, bind, set_rng, set_trace, addFile_calls; simpl.
    rewrite <- !app_assoc. reflexivity.
  - apply IH. exact F.
Qed.

(** The loop of [addFile] runs through without a call when no entry holds
    the extension. *)
Lemma addFile_loop_none (host : Host) (slide : Slide) (ext : string)
    (types : list SupportedFileType) (st : State) :
  (forall type, In type types -> Str.includes (extensions type) ext = false) ->
  addFile_loop host slide ext types st = (inr None, st).
Proof.
  induction types as [|t rest IH]; intros Hno; [reflexivity|].
  simpl. rewrite (Hno t (or_introl eq_refl)). simpl.
  apply IH. intros type Hin. apply Hno. now right.
Qed.

(** The settings object built for each kind of the table. *)
Lemma addFile_settings_table (type : SupportedFileType) (path : string) :
  In type supportedFiles ->
  exists settings,
    addFile_settings (obsName type) path = Some settings /\
    ((obsName type = "image_source" /\ settings = [("file", JStr path)])
     \/ (obsName type = "ffmpeg_source" /\
         settings = [("is_local_file", JBool true); ("local_file", JStr path);
                     ("looping", JBool true)])
     \/ (obsName type = "text_gdiplus" /\
         settings = [("read_from_file", JBool true); ("file", JStr path)])
     \/ (obsName type = "browser_source" /\
         settings = [("is_local_file", JBool true); ("local_file", JStr path)])).
Proof.
  intros H. simpl in H.
  destruct H as [H|[H|[H|[H|[]]]]]; subst type; eexists; (split; [reflexivity|]);
    simpl; auto 6.
Qed.

(** ** The table (C8) *)

(** C8. The table has four entries; its extensions, taken together, are
    without repetition (so each is unique and the four sets are pairwise
    disjoint) and are all lowercase; hence looking up the lowercased form of
    any extension finds at most one entry. *)
Theorem supportedFiles_invariant :
  List.length supportedFiles = 4%nat /\
  NoDup all_extensions /\
  Forall (fun e => Str.toLowerCase e = e) all_extensions /\
  (forall t1 t2 e, In t1 supportedFiles -> In t2 supportedFiles -> t1 <> t2 ->
     In e (extensions t1) -> ~ In e (extensions t2)) /\
  (forall ext t1 t2, In t1 supportedFiles -> In t2 supportedFiles ->
     Str.includes (extensions t1) (Str.toLowerCase ext) = true ->
     Str.includes (extensions t2) (Str.toLowerCase ext) = true ->
     t1 = t2).
Proof.
  split; [reflexivity|]. split; [|split; [|split]].
  - unfold all_extensions; simpl.
    repeat (constructor; [simpl; intuition discriminate|]). constructor.
  - unfold all_extensions; simpl. repeat constructor.
  - intros t1 t2 e H1 H2 Hne He1 He2. apply Hne.
    apply (table_lookup_unique t1 t2 e); try assumption; now apply includes_In.
  - intros ext t1 t2 H1 H2 E1 E2.
    exact (table_lookup_unique t1 t2 _ H1 H2 E1 E2).
Qed.

Lemma supportedFiles_invariant_witness :
  ~ In "png" (extensions video_files) /\
  (forall t, In t supportedFiles ->
             Str.includes (extensions t) (Str.toLowerCase "MKV") = true ->
             t = video_files).
Proof.
  destruct supportedFiles_invariant as [_ [_ [_ [Hdisj Huniq]]]].
  split.
  - apply (Hdisj {| extensions := ["png"; "jpg"; "jpeg"; "tga"; "bmp"];
                    prettyName := "Image files";
                    obsName := "image_source" |} video_files "png").
    + simpl; auto.
    + simpl; auto.
    + discriminate.
    + simpl; auto.
  - intros t Ht Hinc. apply (Huniq "MKV" t video_files Ht).
    + simpl; auto.
    + exact Hinc.
    + reflexivity.
Defined.

(** ** [addFile] (C1, C2) *)

(** C1. When the path resolves and the lowercased extension of the resolved
    path is held by an entry of the table, that entry is the first one, in
    declaration order, whose extensions include it, and [addFile] builds the
    settings object of its kind from the path of the slide (image_source:
    file; ffmpeg_source: is_local_file, local_file, looping; text_gdiplus:
    read_from_file, file; browser_source: is_local_file, local_file), creates
    the source with it, and returns that source. *)
Theorem addFile_supported (host : Host) (slide : Slide) (realpath e : string)
    (type : SupportedFileType) (st : State) :
  fs_realpathSync host (filePath slide) = Some realpath ->
  Str.index0 (Str.splice_last (Str.split "." realpath)) = Some e ->
  In type supportedFiles ->
  Str.includes (extensions type) (Str.toLowerCase e) = true ->
  find (fun t => Str.includes (extensions t) (Str.toLowerCase e)) supportedFiles
  = Some type /\
  exists settings,
    ((obsName type = "image_source" /\
      settings = [("file", JStr (filePath slide))])
     \/ (obsName type = "ffmpeg_source" /\
         settings = [("is_local_file", JBool true);
                     ("local_file", JStr (filePath slide));
                     ("looping", JBool true)])
     \/ (obsName type = "text_gdiplus" /\
         settings = [("read_from_file", JBool true);
                     ("file", JStr (filePath slide))])
     \/ (obsName type = "browser_source" /\
         settings = [("is_local_file", JBool true);
                     ("local_file", JStr (filePath slide))])) /\
    let id := (obsName type ++ "_" ++ uuid_v4 host (rng st))%string in
    let s := {| input_id := obsName type; input_name := id;
                input_settings := settings;
                input_width := fst (media_size host (obsName type) settings);
                input_height := snd (media_size host (obsName type) settings) |} in
    let sceneId := Number_toString host (Math_random host (S (rng st))) in
    addFile host slide st
    = (inr (Some s),
       set_rng (S (S (rng st)))
         (set_trace
            (trace st ++ addFile_calls (obsName type) id settings sceneId s) st)).
Proof.
  intros Hreal Hext Hin Hinc.
  pose proof (table_find type _ Hin Hinc) as Hfind.
  split; [exact Hfind|].
  destruct (addFile_settings_table type (filePath slide) Hin)
    as [settings [Hset Hshape]].
  exists settings. split; [exact Hshape|].
  unfold addFile. rewrite Hreal, Hext.
  destruct e as [|c e'].
  - exfalso. apply (table_member _ _ Hin) in Hinc. vm_compute in Hinc.
    repeat (destruct Hinc as [Hinc|Hinc]; [discriminate|]). contradiction.
  - cbn [Str.falsy].
    exact (addFile_loop_find host slide _ supportedFiles type settings st
             Hfind Hset).
Qed.

Lemma addFile_supported_witness :
  fst (addFile example_host {| filePath := "C:\shows\Intro.MP4" |} example_state)
  = inr (Some {| input_id := "ffmpeg_source";
                 input_name := "ffmpeg_source_uuid-0";
                 input_settings := [("is_local_file", JBool true);
                                    ("local_file", JStr "C:\shows\Intro.MP4");
                                    ("looping", JBool true)];
                 input_width := Number.of_Z 0;
                 input_height := Number.of_Z 0 |}).
Proof.
  destruct (addFile_supported example_host {| filePath := "C:\shows\Intro.MP4" |}
              "C:\shows\Intro.MP4" "MP4"
              (nth 1 supportedFiles {| extensions := []; prettyName := "";
                                       obsName := "" |})
              example_state)
    as [_ [settings [Hshape Hrun]]].
  - reflexivity.
  - reflexivity.
  - simpl; auto.
  - reflexivity.
  - simpl in Hshape.
    destruct Hshape as [[H _]|[[_ H]|[[H _]|[H _]]]]; try discriminate H.
    subst settings. rewrite Hrun. reflexivity.
Defined.

(** C2, as the code has it.  When the path resolves and the extension read
    from the resolved path is missing (the path ends with a dot, or it has no
    dot at all and is a path with a separator), or its lowercased form is in
    no entry of the table, [addFile] returns [null] and leaves the state as
    it was: no call is issued, so no source, no scene and no timer is
    created.  When the path does not resolve, [addFile] does not return: it
    throws, also with the state as it was. *)
Theorem addFile_unsupported (host : Host) (slide : Slide) (st : State) :
  (fs_realpathSync host (filePath slide) = None ->
   exists e, addFile host slide st = (inl e, st)) /\
  (forall realpath,
      fs_realpathSync host (filePath slide) = Some realpath ->
      Str.index0 (Str.splice_last (Str.split "." realpath)) = Some EmptyString
      \/ (has_char "." realpath = false /\ has_separator realpath = true)
      \/ (exists e,
            Str.index0 (Str.splice_last (Str.split "." realpath)) = Some e /\
            forall type, In type supportedFiles ->
                         Str.includes (extensions type) (Str.toLowerCase e)
                         = false) ->
      addFile host slide st = (inr None, st)).
Proof.
  split.
  { intros Hreal. unfold addFile. rewrite Hreal. eexists. reflexivity. }
  intros realpath Hreal Hcase.
  pose proof (fun ext types => addFile_loop_none host slide ext types st) as Hnone.
  unfold addFile. rewrite Hreal.
  destruct Hcase as [Hempty|[[Hdot Hsep]|[e [Hext Hno]]]].
  - rewrite Hempty. reflexivity.
  - rewrite (split_no_sep _ _ Hdot). cbn [Str.splice_last List.length Nat.sub skipn
                                        Str.index0 hd_error].
    destruct realpath as [|c r]; [reflexivity|]. cbn [Str.falsy].
    apply Hnone. intros type Hin.
    destruct (Str.includes (extensions type) (Str.toLowerCase (String c r))) eqn:E;
      [|reflexivity].
    apply (table_member _ _ Hin), table_no_separator in E.
    unfold has_separator in *.
    rewrite !has_char_toLowerCase in E by auto. congruence.
  - rewrite Hext. destruct e as [|c e']; [reflexivity|]. cbn [Str.falsy].
    apply Hnone. exact Hno.
Qed.

Lemma addFile_unsupported_witness :
  addFile example_host {| filePath := "/home/me/notes." |} example_state
  = (inr None, example_state) /\
  addFile example_host {| filePath := "/home/me/README" |} example_state
  = (inr None, example_state) /\
  addFile example_host {| filePath := "/home/me/talk.PDF" |} example_state
  = (inr None, example_state) /\
  exists e, addFile unresolving_host {| filePath := "/gone/notes." |} example_state
            = (inl e, example_state).
Proof.
  split; [|split; [|split]].
  - apply (proj2 (addFile_unsupported example_host _ _) "/home/me/notes.");
      [reflexivity|left; reflexivity].
  - apply (proj2 (addFile_unsupported example_host _ _) "/home/me/README");
      [reflexivity|right; left; split; reflexivity].
  - apply (proj2 (addFile_unsupported example_host _ _) "/home/me/talk.PDF");
      [reflexivity|right; right; exists "PDF"; split; [reflexivity|]].
    intros type H. simpl in H.
    destruct H as [H|[H|[H|[H|[]]]]]; subst type; reflexivity.
  - apply (proj1 (addFile_unsupported unresolving_host _ _)). reflexivity.
Defined.

(** The claim C2 as it is written fails on a path that does not resolve:
    [/gone/notes.] has no extension after its last dot, yet [addFile] does
    not return [null], it throws. *)
Lemma addFile_unsupported_counterexample :
  last (Str.split "." "/gone/notes.") "x" = EmptyString /\
  fst (addFile unresolving_host {| filePath := "/gone/notes." |} example_state)
  <> inr None /\
  exists e,
    fst (addFile unresolving_host {| filePath := "/gone/notes." |} example_state)
    = inl e.
Proof.
  split; [reflexivity|]. split; [discriminate|]. eexists. reflexivity.
Qed.

(** The Kelvin sign lowercases to [k]: a resolved path [clip.MKV] written
    with it is a video for [addFile]. *)
Example addFile_kelvin_sign :
  Str.toLowerCase
    (String "M" (String (ascii_of_nat 226) (String (ascii_of_nat 132)
                   (String (ascii_of_nat 170) "V"))))
  = "mkv".
Proof. reflexivity. Qed.

(** ** Comparison of numbers *)

Lemma SFcompare_antisym (a b : spec_float) :
  SFcompare b a = option_map CompOpp (SFcompare a b).
Proof.
  destruct a as [sa|sa| |sa ma ea], b as [sb|sb| |sb mb eb]; simpl;
    try destruct sa; try destruct sb; try reflexivity;
    change (Pos.compare_cont Eq mb ma) with (Pos.compare mb ma);
    change (Pos.compare_cont Eq ma mb) with (Pos.compare ma mb);
    rewrite (Z.compare_antisym ea eb), (Pos.compare_antisym ma mb);
    destruct (ea ?= eb)%Z; simpl; try reflexivity;
    now rewrite CompOpp_involutive.
Qed.

Lemma ltb_asym (a b : Number.number) :
  Number.ltb a b = true -> Number.ltb b a = false.
Proof.
  unfold Number.ltb, SFltb. rewrite (SFcompare_antisym a b).
  destruct (SFcompare a b) as [[]|]; simpl; congruence.
Qed.

Lemma ltb_irrefl (a : Number.number) : Number.ltb a a = false.
Proof.
  destruct (Number.ltb a a) eqn:E; [|reflexivity].
  pose proof (ltb_asym a a E). congruence.
Qed.

Lemma eqb_not_ltb (a b : Number.number) :
  Number.eqb a b = true -> Number.ltb a b = false /\ Number.ltb b a = false.
Proof.
  unfold Number.eqb, Number.ltb, SFeqb, SFltb. rewrite (SFcompare_antisym a b).
  destruct (SFcompare a b) as [[]|]; simpl; intros H; try discriminate; auto.
Qed.

(** [literal_2_16] is within half a unit in the last place (2^-52) of
    216/100. *)
Lemma literal_2_16_nearest :
  exists q, Number.to_Q literal_2_16 = Some q /\
            ((216 # 100) - (1 # 2 ^ 52) <= q)%Q /\
            (q <= (216 # 100) + (1 # 2 ^ 52))%Q.
Proof.
  eexists. split; [reflexivity|].
  split; apply Qle_bool_imp_le; vm_compute; reflexivity.
Qed.

(** The quotient and the product are rounded to binary64 before the floor
    is taken, as in the code: 216 is reached exactly from 1080/500, while
    115/100*100 is just below 115 and gives the scale 1.14. *)
Lemma fit_scale_binary64 :
  Number.mul (Number.div (Number.of_Z 1080) (Number.of_Z 500)) (Number.of_Z 100)
  = Number.of_Z 216 /\
  fit_scale (Number.of_Z 115) (Number.of_Z 100)
  = Number.div (Number.of_Z 114) (Number.of_Z 100).
Proof. split; vm_compute; reflexivity. Qed.

(** ** [alignItem] (C3, C4, C5) *)

(** [Number.floor] is the floor of the value: the integer part towards
    minus infinity, with no rounding to nearest. *)
Lemma floor_is_floor (x : Number.number) : is_floor_of x (Number.floor x).
Proof.
  destruct x as [s|s| |s m e]; try reflexivity.
  unfold is_floor_of, Number.floor, Number.to_Q.
  destruct (Z.leb_spec 0 e) as [He|He].
  - eexists. split; [reflexivity|]. split; [reflexivity|].
    destruct s.
    + change (Qopp (inject_Z (Z.pos m * 2 ^ e)))
        with (inject_Z (- (Z.pos m * 2 ^ e))).
      now rewrite Qfloor_Z.
    + now rewrite Qfloor_Z.
  - eexists. split; [reflexivity|].
    assert (Hpow : (0 < 2 ^ (- e))%Z) by (apply Z.pow_pos_nonneg; lia).
    assert (Hden : Z.pos (Z.to_pos (2 ^ (- e))) = (2 ^ (- e))%Z)
      by (apply Z2Pos.id; exact Hpow).
    assert (Hshr : Z.shiftr (Z.pos m) (- e) = (Z.pos m / 2 ^ (- e))%Z)
      by (apply Z.shiftr_div_pow2; lia).
    destruct s.
    + change (Qfloor (- (Z.pos m # Z.to_pos (2 ^ (- e)))))
        with ((- Z.pos m) / Z.pos (Z.to_pos (2 ^ (- e))))%Z.
      rewrite Hden, Hshr, Z.shiftl_mul_pow2 by lia.
      pose proof (Z.div_mod (Z.pos m) (2 ^ (- e)) ltac:(lia)) as Hdm.
      pose proof (Z.mod_pos_bound (Z.pos m) (2 ^ (- e)) Hpow) as Hmod.
      assert (Hq : (0 <= Z.pos m / 2 ^ (- e))%Z)
        by (apply Z.div_pos; lia).
      assert (Hnz : (2 ^ (- e))%Z <> 0%Z) by lia.
      destruct (Z.eqb_spec (Z.pos m / 2 ^ (- e) * 2 ^ (- e)) (Z.pos m))
        as [Hex|Hex].
      * assert (Hz : (Z.pos m mod 2 ^ (- e) = 0)%Z).
        { revert Hdm Hex. generalize (Z.pos m / 2 ^ (- e))%Z,
            (Z.pos m mod 2 ^ (- e))%Z, (2 ^ (- e))%Z. intros; lia. }
        rewrite (Z.div_opp_l_z _ _ Hnz Hz).
        assert (Hneg : (- (Z.pos m / 2 ^ (- e)) < 0)%Z).
        { revert Hex Hq Hpow. generalize (Z.pos m / 2 ^ (- e))%Z, (2 ^ (- e))%Z.
          intros; nia. }
        unfold Number.of_Z.
        destruct (- (Z.pos m / 2 ^ (- e)))%Z; [lia|lia|reflexivity].
      * assert (Hz : (Z.pos m mod 2 ^ (- e) <> 0)%Z).
        { revert Hdm Hex. generalize (Z.pos m / 2 ^ (- e))%Z,
            (Z.pos m mod 2 ^ (- e))%Z, (2 ^ (- e))%Z. intros; lia. }
        rewrite (Z.div_opp_l_nz _ _ Hnz Hz).
        replace (- (Z.pos m / 2 ^ (- e)) - 1)%Z
          with (- (Z.pos m / 2 ^ (- e) + 1))%Z by lia.
        unfold Number.of_Z.
        assert (Hneg : (- (Z.pos m / 2 ^ (- e) + 1) < 0)%Z) by lia.
        destruct (- (Z.pos m / 2 ^ (- e) + 1))%Z; [lia|lia|reflexivity].
    + change (Qfloor (Z.pos m # Z.to_pos (2 ^ (- e))))
        with (Z.pos m / Z.pos (Z.to_pos (2 ^ (- e))))%Z.
      now rewrite Hden, Hshr.
Qed.

(** C3. For every canvas and scene item, [alignItem] returns normally and
    sets both scale components to
    [floor((smallest / itemNativeWidth) * 100) / 100], where [smallest] is
    the minimum of the canvas width and height: one of the two sides, with
    neither side below it.  The floor is the floor of the value of the
    product, so the scale is truncated to two decimals and not rounded to
    nearest: for a canvas of 1920x1000 and an item of native width 600 both
    components are 1.66, not 1.67.  For a canvas of 1920x1080 and an item of
    native size 500x500 both components are the number 2.16. *)
Theorem alignItem_scale :
  (forall (sceneItem : ISceneItem) (options : AlignmentOptions) (st : State),
      let width := store_width (settingsStore st) in
      let height := store_height (settingsStore st) in
      exists smallest item',
        (smallest = width \/ smallest = height) /\
        Number.ltb width smallest = false /\
        Number.ltb height smallest = false /\
        alignItem sceneItem options st = (inr item', st) /\
        scale item'
        = {| x := fit_scale smallest (input_width (source sceneItem));
             y := fit_scale smallest (input_width (source sceneItem)) |} /\
        exists n,
          is_floor_of
            (Number.mul
               (Number.div smallest (input_width (source sceneItem)))
               (Number.of_Z 100)) n /\
          fit_scale smallest (input_width (source sceneItem))
          = Number.div n (Number.of_Z 100)) /\
  (forall (sceneItem : ISceneItem) (options : AlignmentOptions) (st : State),
      store_width (settingsStore st) = Number.of_Z 1920 ->
      store_height (settingsStore st) = Number.of_Z 1080 ->
      input_width (source sceneItem) = Number.of_Z 500 ->
      input_height (source sceneItem) = Number.of_Z 500 ->
      exists item',
        alignItem sceneItem options st = (inr item', st) /\
        scale item' = {| x := literal_2_16; y := literal_2_16 |}) /\
  (forall (sceneItem : ISceneItem) (options : AlignmentOptions) (st : State),
      store_width (settingsStore st) = Number.of_Z 1920 ->
      store_height (settingsStore st) = Number.of_Z 1000 ->
      input_width (source sceneItem) = Number.of_Z 600 ->
      exists item',
        alignItem sceneItem options st = (inr item', st) /\
        scale item' = {| x := literal_1_66; y := literal_1_66 |} /\
        scale item' <> {| x := literal_1_67; y := literal_1_67 |}).
Proof.
  split; [|split].
  - intros sceneItem options st width height.
    assert (Hfloor : forall smallest,
               exists n,
                 is_floor_of
                   (Number.mul
                      (Number.div smallest (input_width (source sceneItem)))
                      (Number.of_Z 100)) n /\
                 fit_scale smallest (input_width (source sceneItem))
                 = Number.div n (Number.of_Z 100)).
    { intros smallest. eexists. split; [apply floor_is_floor|reflexivity]. }
    unfold alignItem, bind, gets, ret. fold width height.
    destruct (Number.ltb width height) eqn:Hlt.
    + exists width. eexists. repeat split; auto using ltb_irrefl, ltb_asym.
    + exists height.
      destruct (Number.ltb height width) eqn:Hgt; eexists; repeat split;
        auto using ltb_irrefl.
  - intros sceneItem options st Hw Hh Hiw Hih.
    unfold alignItem, bind, gets, ret. rewrite Hw, Hh.
    replace (Number.ltb (Number.of_Z 1920) (Number.of_Z 1080)) with false
      by (vm_compute; reflexivity).
    replace (Number.ltb (Number.of_Z 1080) (Number.of_Z 1920)) with true
      by (vm_compute; reflexivity).
    eexists. split; [reflexivity|].
    cbn [scale set_position set_scale source]. rewrite Hiw.
    vm_compute. reflexivity.
  - intros sceneItem options st Hw Hh Hiw.
    unfold alignItem, bind, gets, ret. rewrite Hw, Hh.
    replace (Number.ltb (Number.of_Z 1920) (Number.of_Z 1000)) with false
      by (vm_compute; reflexivity).
    replace (Number.ltb (Number.of_Z 1000) (Number.of_Z 1920)) with true
      by (vm_compute; reflexivity).
    eexists. split; [reflexivity|].
    cbn [scale set_position set_scale source]. rewrite Hiw.
    split; [vm_compute; reflexivity|vm_compute; discriminate].
Qed.

Lemma alignItem_scale_witness :
  (exists item',
      alignItem example_item example_options example_state
      = (inr item', example_state) /\
      scale item' = {| x := literal_2_16; y := literal_2_16 |}) /\
  (exists item',
      alignItem (set_scale {| x := Number.of_Z 1; y := Number.of_Z 1 |}
                   {| source := {| input_id := "image_source";
                                   input_name := "wide";
                                   input_settings := [];
                                   input_width := Number.of_Z 600;
                                   input_height := Number.of_Z 400 |};
                      scale := {| x := Number.of_Z 1; y := Number.of_Z 1 |};
                      position := {| x := Number.of_Z 0; y := Number.of_Z 0 |};
                      rotation := Number.of_Z 0;
                      visible := true |})
                example_options (with_canvas 1920 1000)
      = (inr item', with_canvas 1920 1000) /\
      scale item' = {| x := literal_1_66; y := literal_1_66 |}).
Proof.
  destruct alignItem_scale as [_ [H216 H166]].
  split.
  - apply (H216 example_item example_options example_state); reflexivity.
  - destruct (H166 (set_scale {| x := Number.of_Z 1; y := Number.of_Z 1 |}
                      {| source := {| input_id := "image_source";
                                      input_name := "wide";
                                      input_settings := [];
                                      input_width := Number.of_Z 600;
                                      input_height := Number.of_Z 400 |};
                         scale := {| x := Number.of_Z 1; y := Number.of_Z 1 |};
                         position := {| x := Number.of_Z 0; y := Number.of_Z 0 |};
                         rotation := Number.of_Z 0;
                         visible := true |})
                example_options (with_canvas 1920 1000))
      as [item' [Hrun [Hscale _]]]; try reflexivity.
    exists item'. split; [exact Hrun|exact Hscale].
Defined.

(** C4. On a portrait canvas (width < height) [alignItem] puts the item at
    x = 0, y = (height - nativeHeight * scale) / 2; on a landscape canvas
    (width > height) at x = (width - nativeWidth * scale) / 2, y = 0; scale
    is the scale it has just set, computed from the smaller side. *)
Theorem alignItem_position (sceneItem : ISceneItem) (options : AlignmentOptions)
    (st : State) :
  let width := store_width (settingsStore st) in
  let height := store_height (settingsStore st) in
  let nativeWidth := input_width (source sceneItem) in
  let nativeHeight := input_height (source sceneItem) in
  (Number.ltb width height = true ->
   exists item',
     alignItem sceneItem options st = (inr item', st) /\
     scale item' = {| x := fit_scale width nativeWidth;
                      y := fit_scale width nativeWidth |} /\
     position item'
     = {| x := Number.of_Z 0;
          y := Number.div
                 (Number.sub height
                    (Number.mul nativeHeight (fit_scale width nativeWidth)))
                 (Number.of_Z 2) |}) /\
  (Number.ltb height width = true ->
   exists item',
     alignItem sceneItem options st = (inr item', st) /\
     scale item' = {| x := fit_scale height nativeWidth;
                      y := fit_scale height nativeWidth |} /\
     position item'
     = {| x := Number.div
                 (Number.sub width
                    (Number.mul nativeWidth (fit_scale height nativeWidth)))
                 (Number.of_Z 2);
          y := Number.of_Z 0 |}).
Proof.
  intros width height nativeWidth nativeHeight.
  unfold alignItem, bind, gets, ret. fold width height. split; intros H.
  - rewrite H. eexists. repeat split.
  - rewrite (ltb_asym _ _ H), H. eexists. repeat split.
Qed.

Lemma alignItem_position_witness :
  (exists item',
      alignItem example_item example_options (with_canvas 1080 1920)
      = (inr item', with_canvas 1080 1920) /\
      scale item' = {| x := literal_2_16; y := literal_2_16 |} /\
      position item' = {| x := Number.of_Z 0; y := Number.of_Z 420 |}) /\
  (exists item',
      alignItem example_item example_options (with_canvas 1920 1080)
      = (inr item', with_canvas 1920 1080) /\
      scale item' = {| x := literal_2_16; y := literal_2_16 |} /\
      position item' = {| x := Number.of_Z 420; y := Number.of_Z 0 |}).
Proof.
  split.
  - destruct (proj1 (alignItem_position example_item example_options
                       (with_canvas 1080 1920)))
      as [item' [Hrun [Hscale Hpos]]]; [vm_compute; reflexivity|].
    exists item'. split; [exact Hrun|]. split.
    + rewrite Hscale. vm_compute. reflexivity.
    + rewrite Hpos. vm_compute. reflexivity.
  - destruct (proj2 (alignItem_position example_item example_options
                       (with_canvas 1920 1080)))
      as [item' [Hrun [Hscale Hpos]]]; [vm_compute; reflexivity|].
    exists item'. split; [exact Hrun|]. split.
    + rewrite Hscale. vm_compute. reflexivity.
    + rewrite Hpos. vm_compute. reflexivity.
Defined.

(** C5. On a square canvas (width equal to height) [alignItem] leaves the
    position as it was: the item it returns is the item it was given with
    the scale replaced, so the source, the position, the rotation and the
    visibility keep their values, and nothing else in the state changes. *)
Theorem alignItem_square (sceneItem : ISceneItem) (options : AlignmentOptions)
    (st : State) :
  Number.eqb (store_width (settingsStore st)) (store_height (settingsStore st))
  = true ->
  exists item',
    alignItem sceneItem options st = (inr item', st) /\
    item' = set_scale (scale item') sceneItem /\
    position item' = position sceneItem /\
    source item' = source sceneItem /\
    rotation item' = rotation sceneItem /\
    visible item' = visible sceneItem.
Proof.
  intros H. apply eqb_not_ltb in H as [H1 H2].
  unfold alignItem, bind, gets, ret. rewrite H1, H2.
  eexists. repeat split.
Qed.

Lemma alignItem_square_witness :
  exists item',
    alignItem example_item example_options (with_canvas 1080 1080)
    = (inr item', with_canvas 1080 1080) /\
    position item' = {| x := Number.of_Z 0; y := Number.of_Z 0 |} /\
    scale item' = {| x := literal_2_16; y := literal_2_16 |}.
Proof.
  destruct (alignItem_square example_item example_options (with_canvas 1080 1080))
    as [item' [Hrun [Hitem [Hpos _]]]]; [vm_compute; reflexivity|].
  exists item'. split; [exact Hrun|]. split; [exact Hpos|].
  pose proof Hrun as Hrun'. vm_compute in Hrun'.
  injection Hrun' as <-. reflexivity.
Defined.

(** ** [initOBS] (C9) *)

Lemma to_int_not_nil (z : Z) :
  Z.to_int z <> Decimal.Pos Decimal.Nil /\ Z.to_int z <> Decimal.Neg Decimal.Nil.
Proof.
  split; intros H; pose proof (f_equal Z.of_int H) as H';
    rewrite DecimalZ.of_to in H'; subst z; discriminate H.
Qed.

Lemma of_Z_inj (a b : Z) : Str.of_Z a = Str.of_Z b -> a = b.
Proof.
  unfold Str.of_Z. intros H.
  apply (f_equal NilZero.int_of_string) in H.
  destruct (to_int_not_nil a) as [Ha1 Ha2], (to_int_not_nil b) as [Hb1 Hb2].
  rewrite !NilZero.isi in H by assumption.
  injection H as H. apply (f_equal Z.of_int) in H.
  now rewrite !DecimalZ.of_to in H.
Qed.

Lemma errorMessage_by_code (code : Z) :
  or_else (get_property errorReasons (Str.of_Z code))
          ("An unknown error #" ++ Str.of_Z code
           ++ " was encountered while initializing OBS.")%string
  = init_failure_message code.
Proof.
  unfold init_failure_message, errorReasons, get_property.
  destruct (Z.eqb_spec code (-2)) as [->|H2]; [reflexivity|].
  destruct (Z.eqb_spec code (-5)) as [->|H5]; [reflexivity|].
  destruct (String.eqb_spec "-2" (Str.of_Z code)) as [E|_].
  { exfalso. apply H2. apply of_Z_inj. now rewrite <- E. }
  destruct (String.eqb_spec "-5" (Str.of_Z code)) as [E|_].
  { exfalso. apply H5. apply of_Z_inj. now rewrite <- E. }
  reflexivity.
Qed.

Example init_failure_message_unknown :
  init_failure_message 7
  = "An unknown error #7 was encountered while initializing OBS.".
Proof. reflexivity. Qed.

(** C9. After the engine answers a nonzero result code, [initOBS] logs the
    message of that code (the message of -2, the message of -5, or the
    generic one holding the code), calls [shutdown] and throws: an error is
    always raised, it is the error of that message whenever [shutdown]
    returns, and this is so in particular while the object is not yet
    initialized, where [shutdown] only logs.  After result code 0 it returns
    normally. *)
Theorem initOBS_result (host : Host) (st : State) :
  let code := initAPI_result host in
  let st1 := set_trace (trace st ++ initOBS_prologue host) st in
  (code <> 0%Z ->
   let msg := init_failure_message code in
   let st2 := set_trace (trace st1 ++ [console_error "OBS init failure" msg]) st1 in
   initOBS host st
   = match shutdown host st2 with
     | (inr _, st3) => (inl (Error msg), st3)
     | (inl e, st3) => (inl e, st3)
     end /\
   (exists e st', initOBS host st = (inl e, st')) /\
   (obsInitialized st = false ->
    initOBS host st
    = (inl (Error msg),
       set_trace (trace st2 ++ [console_debug "OBS is already shut down!"]) st2))) /\
  (code = 0%Z ->
   initOBS host st
   = (inr tt,
      set_trace (trace st1 ++ [OBS_service_connectOutputSignals;
                               console_debug "OBS initialized"]) st1)).
Proof.
  intros code st1.
  assert (Hpro : forall k : M State unit,
             (emit (console_debug "Initializing OBS...") ;;
              emit (IPC_host "obs-studio-node-example") ;;
              emit (SetWorkingDirectory
                      (path_join host (dirname host)
                                 "../../node_modules/obs-studio-node")) ;;
              emit (OBS_API_initAPI "en-US"
                      (path_join host (dirname host) "../../osn-data") "1.0.0") ;;
              k) st = k st1).
  { intros k. unfold bind, emit, modify, st1, initOBS_prologue, set_trace; simpl.
    rewrite <- !app_assoc. reflexivity. }
  split.
  - intros Hcode msg st2.
    assert (Hrun : initOBS host st
                   = match shutdown host st2 with
                     | (inr _, st3) => (inl (Error msg), st3)
                     | (inl e, st3) => (inl e, st3)
                     end).
    { unfold initOBS. rewrite Hpro. fold code.
      destruct (Z.eqb_spec code 0) as [E|_]; [contradiction|]. cbn [negb].
      rewrite errorMessage_by_code. fold msg.
      unfold bind at 1. unfold emit at 1, modify at 1. fold st2.
      unfold bind, throw. destruct (shutdown host st2) as [[e|b] st3]; reflexivity. }
    split; [exact Hrun|]. split.
    + rewrite Hrun. destruct (shutdown host st2) as [[e|b] st3]; eauto.
    + intros Hinit. rewrite Hrun.
      unfold shutdown, bind, gets. simpl. rewrite Hinit. reflexivity.
  - intros Hcode. unfold initOBS. rewrite Hpro. fold code. rewrite Hcode.
    cbn [Z.eqb negb]. unfold bind, emit, modify, set_trace; simpl.
    rewrite <- !app_assoc. reflexivity.
Qed.

Lemma initOBS_result_witness :
  initOBS example_host example_state
  = (inl (Error "Failed to initialize OBS. Your video drivers may be out of date, or Streamlabs OBS may not be supported on your system."),
     set_trace
       (initOBS_prologue example_host
        ++ [console_error "OBS init failure" (init_failure_message (-5));
            console_debug "OBS is already shut down!"])
       example_state).
Proof.
  destruct (initOBS_result example_host example_state) as [Hfail _].
  destruct Hfail as [_ [_ Hthrow]]; [discriminate|].
  rewrite Hthrow; reflexivity.
Defined.

(** ** [setSetting] (C7) *)

Lemma last_cons_default {A : Type} (a : A) (l : list A) (d : A) :
  last (a :: l) d = last l a.
Proof.
  revert a d. induction l as [|b l IH]; intros a d; [reflexivity|].
  change (last (a :: b :: l) d) with (last (b :: l) d).
  now rewrite (IH b d), (IH b a).
Qed.

Lemma last_app_default {A : Type} (l1 l2 : list A) (d : A) :
  last (l1 ++ l2) d = last l2 (last l1 d).
Proof.
  revert d. induction l1 as [|a l1 IH]; intros d; [reflexivity|].
  rewrite <- app_comm_cons, !last_cons_default. apply IH.
Qed.

Lemma setSetting_parameters_spec (parameter : string) (value : jsval)
    (ps : list SettingsParameter) (oldValue : jsval) :
  setSetting_parameters parameter value ps oldValue
  = (map (update_parameter parameter value) ps,
     last (map currentValue
               (filter (fun p => String.eqb (name p) parameter) ps))
          oldValue).
Proof.
  revert oldValue. induction ps as [|p ps IH]; intros oldValue; [reflexivity|].
  cbn [setSetting_parameters map filter]. unfold update_parameter at 1.
  destruct (String.eqb (name p) parameter); rewrite IH.
  - cbn [map]. now rewrite last_cons_default.
  - reflexivity.
Qed.

Lemma setSetting_subCategories_spec (parameter : string) (value : jsval)
    (cs : SettingsContainer) (oldValue : jsval) :
  setSetting_subCategories parameter value cs oldValue
  = (update_container parameter value cs,
     last (current_values parameter cs) oldValue).
Proof.
  revert oldValue. induction cs as [|c cs IH]; intros oldValue; [reflexivity|].
  cbn [setSetting_subCategories]. rewrite setSetting_parameters_spec, IH.
  unfold current_values. cbn [flat_map update_container map].
  now rewrite last_app_default.
Qed.

(** On strings, [==] is equality of strings. *)
Lemma loose_eq_strings (toNumber : string -> Number.number) (a b : string) :
  loose_eq toNumber (JStr a) (JStr b) = true <-> a = b.
Proof. simpl. apply String.eqb_eq. Qed.

(** C7. Let [cur] be the current value of [parameter] in the container of
    [category].  When [value == cur], [setSetting] issues no call and leaves
    the state as it was; when [value != cur], it issues exactly one call,
    [OBS_settings_saveSettings] with the category and the container in which
    [parameter] holds [value], which the engine then stores. *)
Theorem setSetting_persistence (host : Host) (category parameter : string)
    (value : jsval) (st : State) (settings : SettingsContainer) :
  get_property (engineSettings st) category = Some settings ->
  let cur := current_value parameter settings in
  let updated := update_container parameter value settings in
  (loose_eq (StringToNumber host) value cur = true ->
   setSetting host category parameter value st = (inr tt, st)) /\
  (loose_eq (StringToNumber host) value cur = false ->
   setSetting host category parameter value st
   = (inr tt,
      set_engineSettings (put_property (engineSettings st) category updated)
        (set_trace (trace st ++ [OBS_settings_saveSettings category updated])
                   st))).
Proof.
  intros Hget cur updated.
  assert (Hrun : setSetting host category parameter value st
                 = (if negb (loose_eq (StringToNumber host) value cur)
                    then
                      (emit (OBS_settings_saveSettings category updated) ;;
                       modify (fun s =>
                                 set_engineSettings
                                   (put_property (engineSettings s) category
                                                 updated) s))
                    else ret tt) st).
  { unfold setSetting, bind at 1, gets at 1. rewrite Hget.
    rewrite setSetting_subCategories_spec. reflexivity. }
  split; intros H; rewrite Hrun, H; reflexivity.
Qed.

Lemma setSetting_persistence_witness :
  setSetting example_host "Output" "RecFormat" (JStr "flv") example_state
  = (inr tt, example_state) /\
  trace (snd (setSetting example_host "Output" "RecFormat" (JStr "mkv")
                         example_state))
  = [ OBS_settings_saveSettings "Output"
        [ {| nameSubCategory := "Untitled";
             parameters := [ {| name := "Mode"; description := "Output Mode";
                                currentValue := JStr "Simple" |} ] |};
          {| nameSubCategory := "Recording";
             parameters := [ {| name := "RecFormat";
                                description := "Recording Format";
                                currentValue := JStr "mkv" |} ] |} ] ].
Proof.
  split.
  - apply (proj1 (setSetting_persistence example_host "Output" "RecFormat"
                    (JStr "flv") example_state _ eq_refl)).
    reflexivity.
  - rewrite (proj2 (setSetting_persistence example_host "Output" "RecFormat"
                      (JStr "mkv") example_state _ eq_refl) eq_refl).
    reflexivity.
Defined.

(** ** The device list of [MobileService] (C6) *)

Section DeviceList.

Import MobileService.

Lemma filter_mobiles_defined (a : string) (l : list ConnectedMobile) :
  Forall (fun d => device d <> None) l ->
  filter_mobiles (jsonBody (disconnect_request a)) l
  = inr (filter (fun d => negb (has_uuid a d)) l).
Proof.
  induction 1 as [|d l Hd _ IH]; [reflexivity|].
  cbn [filter_mobiles filter]. unfold has_uuid at 1.
  destruct (device d) as [dev|]; [|contradiction].
  cbn [jsonBody disconnect_request] in *. rewrite IH.
  cbn [body_deviceId strict_neq].
  destruct (String.eqb (uuid dev) a); reflexivity.
Qed.

Lemma filter_mobiles_absent (a : string) (l : list ConnectedMobile) :
  Forall (fun d => has_uuid a d = false) l ->
  (exists e, filter_mobiles (jsonBody (disconnect_request a)) l = inl e)
  \/ filter_mobiles (jsonBody (disconnect_request a)) l = inr l.
Proof.
  induction 1 as [|d l Hd _ IH]; [now right|].
  cbn [filter_mobiles]. unfold has_uuid in Hd.
  destruct (device d) as [dev|]; [|left; eauto].
  cbn [jsonBody disconnect_request] in *.
  destruct IH as [[e IH]|IH]; rewrite IH; [left; eauto|right].
  cbn [body_deviceId strict_neq]. now rewrite Hd.
Qed.

Lemma filter_all {A : Type} (f : A -> bool) (l : list A) :
  Forall (fun d => f d = true) l -> filter f l = l.
Proof.
  induction 1 as [|d l Hd _ IH]; [reflexivity|].
  simpl. now rewrite Hd, IH.
Qed.

Lemma set_connectedMobiles_same (st : State) :
  set_connectedMobiles (connectedMobiles st) st = st.
Proof. now destruct st. Qed.

(** C6, as the code has it.  On a list whose elements are devices,
    [/connect] with a device of UUID [a] followed by [/disconnect] with
    device id [a] both answer success and leave the list without any
    element of UUID [a]: the pre-connect list when it held no device of
    UUID [a].  On a list that holds no device of UUID [a], [/disconnect]
    with device id [a] leaves the state as it was. *)
Theorem connect_then_disconnect (st : State) (dev : Device) (a : string) :
  uuid dev = a ->
  (Forall (fun d => device d <> None) (connectedMobiles st) ->
   exists st1 st2,
     connect (connect_request dev) st = (inr success_true, st1) /\
     disconnect (disconnect_request a) st1 = (inr success_true, st2) /\
     connectedMobiles st2
     = filter (fun d => negb (has_uuid a d)) (connectedMobiles st) /\
     expressRunning st2 = expressRunning st /\
     (Forall (fun d => has_uuid a d = false) (connectedMobiles st) ->
      st2 = st)) /\
  (Forall (fun d => has_uuid a d = false) (connectedMobiles st) ->
   snd (disconnect (disconnect_request a) st) = st).
Proof.
  intros Hdev. split.
  - intros Hdef.
    assert (Hdef' : Forall (fun d => device d <> None)
                           (connectedMobiles st ++ [{| device := Some dev |}])).
    { apply Forall_app. split; [assumption|]. repeat constructor. discriminate. }
    assert (Hfilter : filter (fun d => negb (has_uuid a d))
                             (connectedMobiles st ++ [{| device := Some dev |}])
                      = filter (fun d => negb (has_uuid a d))
                               (connectedMobiles st)).
    { rewrite filter_app. cbn [filter]. unfold has_uuid at 2. cbn [device].
      rewrite Hdev, String.eqb_refl. cbn [negb]. apply app_nil_r. }
    exists (set_connectedMobiles
              (connectedMobiles st ++ [{| device := Some dev |}]) st).
    exists (set_connectedMobiles
              (filter (fun d => negb (has_uuid a d))
                      (connectedMobiles st ++ [{| device := Some dev |}])) st).
    split; [reflexivity|]. split.
    + unfold disconnect, bind, gets, modify, ret.
      cbn [connectedMobiles set_connectedMobiles].
      rewrite (filter_mobiles_defined a _ Hdef'). reflexivity.
    + cbn [connectedMobiles set_connectedMobiles expressRunning].
      split; [exact Hfilter|]. split; [reflexivity|].
      intros Habs. rewrite Hfilter, filter_all.
      * apply set_connectedMobiles_same.
      * eapply Forall_impl; [|exact Habs]. cbn beta. intros d ->. reflexivity.
  - intros Habs. unfold disconnect, bind, gets, modify, ret, throw.
    destruct (filter_mobiles_absent a _ Habs) as [[e H]|H]; rewrite H;
      [reflexivity|apply set_connectedMobiles_same].
Qed.

Lemma connect_then_disconnect_witness :
  snd (disconnect (disconnect_request "A")
         (snd (connect (connect_request (example_device "A"))
                       (service_with [example_device "B"]))))
  = service_with [example_device "B"] /\
  snd (disconnect (disconnect_request "A") (service_with [example_device "B"]))
  = service_with [example_device "B"].
Proof.
  destruct (connect_then_disconnect (service_with [example_device "B"])
              (example_device "A") "A" eq_refl) as [Hcd Hd].
  split.
  - destruct Hcd as [st1 [st2 [H1 [H2 [_ [_ Hsame]]]]]].
    + repeat constructor; discriminate.
    + rewrite H1. cbn [snd]. rewrite H2. cbn [snd].
      apply Hsame. repeat constructor.
  - apply Hd. repeat constructor.
Defined.

(** The claim C6 as it is written fails on a list that already holds a
    device of UUID A: after [/connect] and [/disconnect] the list is empty,
    not the pre-connect list. *)
Lemma connect_then_disconnect_counterexample :
  connectedMobiles
    (snd (disconnect (disconnect_request "A")
            (snd (connect (connect_request (example_device "A"))
                          (service_with [example_device "A"])))))
  = [] /\
  snd (disconnect (disconnect_request "A")
         (snd (connect (connect_request (example_device "A"))
                       (service_with [example_device "A"]))))
  <> service_with [example_device "A"].
Proof.
  split; [reflexivity|]. vm_compute. discriminate.
Qed.

End DeviceList.

(** ** The two variants of [addFile] (C10) *)

(** Run a monadic body of either class down to its result and final state. *)
Ltac run_current :=
  cbn; unfold bind, gets, ret, throw, emit, modify, fresh, set_trace, set_rng;
  cbn.

Ltac run_legacy :=
  cbn; unfold bind, gets, ret, throw, LegacyOBS.emit, modify, LegacyOBS.fresh,
    LegacyOBS.set_trace, LegacyOBS.set_rng;
  cbn.

Lemma created_inputs_app (a b : list Event) :
  created_inputs (a ++ b) = created_inputs a ++ created_inputs b.
Proof. apply flat_map_app. Qed.

Lemma not_in_table (ext : string) :
  ~ In ext all_extensions ->
  forall type, In type supportedFiles ->
               Str.includes (extensions type) ext = false.
Proof.
  intros Hno type Hin.
  destruct (Str.includes (extensions type) ext) eqn:E; [|reflexivity].
  exfalso. apply Hno. exact (table_member _ _ Hin E).
Qed.

Lemma legacy_loop_none (host : Host) (path : string) (filename : option string)
    (ext : string) (lst : LegacyOBS.State) :
  ~ In ext all_extensions ->
  LegacyOBS.addFile_loop host path filename ext
    (LegacyOBS.Object_keys LegacyOBS.SUPPORTED_EXT) lst
  = (inr None, lst).
Proof.
  intros Hno.
  assert (H : forall exts, incl exts all_extensions ->
                           Str.includes exts ext = false).
  { intros exts Hincl. destruct (Str.includes exts ext) eqn:E; [|reflexivity].
    exfalso. apply Hno, Hincl. now apply includes_In. }
  cbn [LegacyOBS.Object_keys LegacyOBS.SUPPORTED_EXT map fst
       LegacyOBS.addFile_loop get_property String.eqb Ascii.eqb Bool.eqb].
  rewrite !H; [reflexivity| | | |];
    intros x Hx; vm_compute in Hx |- *; tauto.
Qed.

(** C10. On every path, from states that have drawn as many random values,
    the table-driven [addFile] and the older [addFile] over [SUPPORTED_EXT]
    create the same sources: none, or one source of the same kind, name and
    settings.  When the older object holds a scene, the two calls also end
    alike: the same error, the same [null] or the same source. *)
Theorem addFile_variants_agree (host : Host) (path : string) (st : State)
    (lst : LegacyOBS.State) :
  rng st = LegacyOBS.rng lst ->
  exists created,
    (List.length created <= 1)%nat /\
    created_inputs (trace (snd (addFile host {| filePath := path |} st)))
    = created_inputs (trace st) ++ created /\
    created_inputs (LegacyOBS.trace (snd (LegacyOBS.addFile host path lst)))
    = created_inputs (LegacyOBS.trace lst) ++ created /\
    (LegacyOBS.scenes lst <> [] ->
     fst (addFile host {| filePath := path |} st)
     = fst (LegacyOBS.addFile host path lst)).
Proof.
  intros Hrng.
  destruct lst as [scenes0 factor0 trace0 rng0].
  cbn [LegacyOBS.rng] in Hrng. subst rng0.
  cbn [LegacyOBS.trace LegacyOBS.scenes].
  unfold addFile, LegacyOBS.addFile. cbn [filePath].
  unfold bind, LegacyOBS.emit, modify. cbn beta iota.
  cbn [LegacyOBS.set_trace LegacyOBS.trace LegacyOBS.scenes LegacyOBS.rng
       LegacyOBS.videoScaleFactor].
  destruct (fs_realpathSync host path) as [realpath|].
  2:{ exists []. cbn. rewrite created_inputs_app. cbn. rewrite !app_nil_r. auto. }
  rewrite extension_defined.
  destruct (last (Str.split "." realpath) EmptyString) as [|c e'] eqn:He.
  { exists []. cbn. rewrite created_inputs_app. cbn. rewrite !app_nil_r. auto. }
  cbn [Str.falsy].
  remember (Str.toLowerCase (String c e')) as ext eqn:Hext. clear Hext He.
  destruct (in_dec string_dec ext all_extensions) as [Hin|Hno].
  - apply all_extensions_cases in Hin.
    repeat (destruct Hin as [Hin|Hin]; [subst ext|]); [..|contradiction];
      (match goal with
       | |- context [addFile_loop _ _ ?e _ _] =>
           exists (source_for host path e (rng st))
       end;
       split; [cbn; lia|split; [|split]];
       [ run_current; rewrite ?created_inputs_app, <- ?app_assoc; cbn;
         reflexivity
       | run_legacy; destruct scenes0; cbn;
         rewrite ?created_inputs_app, <- ?app_assoc; cbn; reflexivity
       | intros Hsc; run_legacy; destruct scenes0; [contradiction|];
         reflexivity ]).
  - exists [].
    rewrite (addFile_loop_none host _ ext supportedFiles st (not_in_table ext Hno)).
    rewrite !(legacy_loop_none host path _ ext _ Hno).
    cbn. rewrite created_inputs_app. cbn. rewrite !app_nil_r. auto.
Qed.

Lemma addFile_variants_agree_witness :
  fst (addFile example_host {| filePath := "C:\shows\index.HTML" |} example_state)
  = fst (LegacyOBS.addFile example_host "C:\shows\index.HTML"
                           example_legacy_state) /\
  created_inputs
    (LegacyOBS.trace (snd (LegacyOBS.addFile example_host "C:\shows\index.HTML"
                                             example_legacy_state)))
  = created_inputs
      (trace (snd (addFile example_host {| filePath := "C:\shows\index.HTML" |}
                           example_state))).
Proof.
  destruct (addFile_variants_agree example_host "C:\shows\index.HTML"
              example_state example_legacy_state eq_refl)
    as [created [_ [Hnew [Hold Hres]]]].
  split.
  - apply Hres. discriminate.
  - rewrite Hnew, Hold. reflexivity.
Defined.


(* ========================================================================= *)
(** * Further properties of the code *)

(** ** [shutdown] and the failure path of [initOBS] *)

(** X1. On an initialized object whose engine calls succeed, [shutdown]
    removes the callback, disconnects, closes the preview window when one is
    open, answers [true] and leaves the object uninitialized; a second
    [shutdown] then answers [false] and issues nothing but a log line. *)
Theorem shutdown_initialized (host : Host) (st : State) :
  obsInitialized st = true ->
  removeCallback_throws host = None ->
  disconnect_throws host = None ->
  let st' :=
    set_trace
      (trace st
       ++ [console_debug "Shutting down OBS..."; OBS_service_removeCallback;
           IPC_disconnect; console_debug "OBS shutdown successfully"]
       ++ (if previewWindow st then [previewWindow_close] else []))
      (set_obsInitialized false st) in
  shutdown host st = (inr true, st') /\
  shutdown host st'
  = (inr false,
     set_trace (trace st' ++ [console_debug "OBS is already shut down!"]) st').
Proof.
  intros Hinit Hrc Hdc st'. split.
  - unfold shutdown, bind, gets, try_catch, emit_may_throw, emit, modify, ret,
      bind. cbn. rewrite Hinit, Hrc, Hdc. cbn.
    unfold st', set_trace, set_obsInitialized; cbn.
    destruct (previewWindow st); cbn; rewrite <- !app_assoc; reflexivity.
  - reflexivity.
Qed.

Lemma shutdown_initialized_witness :
  fst (shutdown example_host initialized_state) = inr true /\
  trace (snd (shutdown example_host initialized_state))
  = [console_debug "Shutting down OBS..."; OBS_service_removeCallback;
     IPC_disconnect; console_debug "OBS shutdown successfully";
     previewWindow_close] /\
  fst (shutdown example_host (snd (shutdown example_host initialized_state)))
  = inr false.
Proof.
  destruct (shutdown_initialized example_host initialized_state
              eq_refl eq_refl eq_refl) as [H1 H2].
  rewrite H1. cbn [fst snd]. rewrite H2. repeat split.
Defined.

(** The run of [shutdown] up to an engine call that throws. *)
Lemma shutdown_engine_failure_steps (host : Host) (st : State) (e : exn) :
  obsInitialized st = true ->
  (removeCallback_throws host = Some e ->
   shutdown host st
   = (inl (Error ("Exception when shutting down OBS process"
                  ++ exn_to_string e)%string),
      set_trace (trace st ++ [console_debug "Shutting down OBS...";
                              OBS_service_removeCallback]) st)) /\
  (removeCallback_throws host = None -> disconnect_throws host = Some e ->
   shutdown host st
   = (inl (Error ("Exception when shutting down OBS process"
                  ++ exn_to_string e)%string),
      set_trace (trace st ++ [console_debug "Shutting down OBS...";
                              OBS_service_removeCallback; IPC_disconnect]) st)).
Proof.
  intros Hinit. split.
  - intros Hrc.
    unfold shutdown, bind, gets, try_catch, emit_may_throw, emit, modify, ret,
      throw, bind. cbn. rewrite Hinit, Hrc. cbn.
    unfold set_trace; cbn. rewrite <- !app_assoc. reflexivity.
  - intros Hrc Hdc.
    unfold shutdown, bind, gets, try_catch, emit_may_throw, emit, modify, ret,
      throw, bind. cbn. rewrite Hinit, Hrc, Hdc. cbn.
    unfold set_trace; cbn. rewrite <- !app_assoc. reflexivity.
Qed.

(** X2. When an engine call of [shutdown] throws, the calls after it are not
    made: if removing the callback throws there is no disconnect, if the
    disconnect throws it comes after the removal; in both cases the window
    is not closed, the object stays initialized, and for an [Error] of the
    engine the error thrown is "Exception when shutting down OBS process"
    followed by the text of that error ("Error: " and its message, or
    "Error" alone when the message is empty). *)
Theorem shutdown_engine_failure (host : Host) (st : State) (e : exn) :
  obsInitialized st = true ->
  (removeCallback_throws host = Some e ->
   shutdown host st
   = (inl (Error ("Exception when shutting down OBS process"
                  ++ exn_to_string e)%string),
      set_trace (trace st ++ [console_debug "Shutting down OBS...";
                              OBS_service_removeCallback]) st)) /\
  (removeCallback_throws host = None -> disconnect_throws host = Some e ->
   shutdown host st
   = (inl (Error ("Exception when shutting down OBS process"
                  ++ exn_to_string e)%string),
      set_trace (trace st ++ [console_debug "Shutting down OBS...";
                              OBS_service_removeCallback; IPC_disconnect]) st)).
Proof. exact (shutdown_engine_failure_steps host st e). Qed.

Lemma shutdown_engine_failure_witness :
  shutdown failing_host initialized_state
  = (inl (Error "Exception when shutting down OBS processError: IPC connection lost"),
     set_trace [console_debug "Shutting down OBS..."; OBS_service_removeCallback]
               initialized_state).
Proof.
  exact (proj1 (shutdown_engine_failure failing_host initialized_state
                  (Error "IPC connection lost") eq_refl) eq_refl).
Defined.

(** What [initOBS] does after a nonzero result code, in terms of
    [shutdown]. *)
Lemma initOBS_failure_run (host : Host) (st : State) :
  initAPI_result host <> 0%Z ->
  let msg := init_failure_message (initAPI_result host) in
  let st2 := set_trace (trace st ++ initOBS_prologue host
                        ++ [console_error "OBS init failure" msg]) st in
  initOBS host st
  = match shutdown host st2 with
    | (inr _, st3) => (inl (Error msg), st3)
    | (inl e, st3) => (inl e, st3)
    end.
Proof.
  intros Hcode msg st2.
  unfold initOBS.
  destruct (Z.eqb_spec (initAPI_result host) 0) as [E|_]; [contradiction|].
  cbn [negb]. rewrite errorMessage_by_code. fold msg.
  unfold bind at 1 2 3 4 5. unfold emit at 1 2 3 4 5, modify at 1 2 3 4 5.
  cbn beta iota.
  replace (set_trace _ (set_trace _ (set_trace _ (set_trace _ (set_trace _ st)))))
    with st2.
  - unfold bind, throw. destruct (shutdown host st2) as [[e|b] st3]; reflexivity.
  - unfold st2, initOBS_prologue, set_trace; cbn. rewrite <- !app_assoc.
    reflexivity.
Qed.

(** Whatever the engine does, [shutdown] only logs, removes the callback,
    disconnects and closes the window. *)
Lemma shutdown_calls (host : Host) (st : State) :
  exists added,
    trace (snd (shutdown host st)) = trace st ++ added /\
    ~ In OBS_service_connectOutputSignals added /\
    engineSettings (snd (shutdown host st)) = engineSettings st /\
    rng (snd (shutdown host st)) = rng st.
Proof.
  unfold shutdown, bind, gets, try_catch, emit_may_throw, emit, modify, ret,
    throw, bind. cbn.
  destruct (obsInitialized st); cbn;
    [destruct (removeCallback_throws host); cbn;
     [|destruct (disconnect_throws host); cbn;
       [|destruct (previewWindow st); cbn]]|];
    rewrite <- ?app_assoc; cbn;
    (eexists; split; [reflexivity|]; split; [|split; reflexivity]);
    cbn; intuition discriminate.
Qed.

(** X4. After a nonzero result code [initOBS] ends with an error without
    ever registering the output-signal callback, whatever the state of the
    object and whatever [shutdown] does; the settings of the engine are not
    touched. *)
Theorem initOBS_failure_never_connects (host : Host) (st : State) :
  initAPI_result host <> 0%Z ->
  exists e st' added,
    initOBS host st = (inl e, st') /\
    trace st' = trace st ++ added /\
    ~ In OBS_service_connectOutputSignals added /\
    engineSettings st' = engineSettings st.
Proof.
  intros Hcode. rewrite (initOBS_failure_run host st Hcode).
  match goal with
  | |- context [shutdown host ?s] =>
      destruct (shutdown_calls host s) as [added [Htr [Hno [Hes _]]]];
      destruct (shutdown host s) as [[e|b] st3]
  end; cbn [snd trace set_trace engineSettings] in Htr, Hes;
    eexists; eexists;
    exists (initOBS_prologue host
            ++ [console_error "OBS init failure"
                  (init_failure_message (initAPI_result host))] ++ added);
    (split; [reflexivity|]; split; [rewrite Htr, <- !app_assoc; reflexivity|];
     split; [|exact Hes]);
    rewrite !in_app_iff; cbn; intuition discriminate.
Qed.

Lemma initOBS_failure_never_connects_witness :
  ~ In OBS_service_connectOutputSignals
       (trace (snd (initOBS example_host initialized_state))) /\
  exists e, fst (initOBS example_host initialized_state) = inl e.
Proof.
  destruct (initOBS_failure_never_connects example_host initialized_state)
    as [e [st' [added [Hrun [Htr [Hno _]]]]]]; [discriminate|].
  rewrite Hrun. cbn [fst snd]. split.
  - rewrite Htr. cbn. exact Hno.
  - exists e. reflexivity.
Defined.

(** ** [alignItem] beyond the claims *)

(** X5. [alignItem] reads neither its options nor the scale the item had,
    and on a canvas that is not square it does not read the position the item
    had either: two items with the same source are given the same scale, and
    on a portrait or landscape canvas the same position, whatever the
    options.  On a square canvas each item keeps the position it had.  The
    rotation, the visibility and the source are kept, and aligning the result
    again, with any options, gives the same item. *)
Theorem alignItem_source_only (item1 item2 : ISceneItem)
    (options1 options2 : AlignmentOptions) (st : State) :
  source item1 = source item2 ->
  let width := store_width (settingsStore st) in
  let height := store_height (settingsStore st) in
  exists r1 r2,
    alignItem item1 options1 st = (inr r1, st) /\
    alignItem item2 options2 st = (inr r2, st) /\
    alignItem item1 options2 st = (inr r1, st) /\
    scale r1 = scale r2 /\
    (Number.ltb width height = true \/ Number.ltb height width = true ->
     position r1 = position r2) /\
    (Number.ltb width height = false -> Number.ltb height width = false ->
     position r1 = position item1 /\ position r2 = position item2) /\
    source r1 = source item1 /\
    rotation r1 = rotation item1 /\
    visible r1 = visible item1 /\
    alignItem r1 options2 st = (inr r1, st).
Proof.
  intros Hsrc width height.
  unfold alignItem, bind, gets, ret. fold width height. rewrite <- Hsrc.
  destruct (Number.ltb width height) eqn:Hlt;
    [|destruct (Number.ltb height width) eqn:Hgt];
    eexists; eexists;
    (split; [reflexivity|]); (split; [reflexivity|]); (split; [reflexivity|]);
    cbn [scale position source rotation visible set_scale set_position];
    rewrite <- ?Hsrc; repeat split; intros; try reflexivity;
    try discriminate; intuition discriminate.
Qed.

Lemma alignItem_source_only_witness :
  exists r1 r2,
    alignItem example_item example_options (with_canvas 1080 1920)
    = (inr r1, with_canvas 1080 1920) /\
    alignItem (set_position {| x := Number.of_Z 33; y := Number.of_Z 44 |}
                 (set_scale {| x := Number.of_Z 5; y := Number.of_Z 7 |}
                            example_item))
              {| opt_alignment := "left"; opt_padding := Number.of_Z 0;
                 opt_scale := "none" |}
              (with_canvas 1080 1920)
    = (inr r2, with_canvas 1080 1920) /\
    scale r1 = scale r2 /\ position r1 = position r2.
Proof.
  destruct (alignItem_source_only example_item
              (set_position {| x := Number.of_Z 33; y := Number.of_Z 44 |}
                 (set_scale {| x := Number.of_Z 5; y := Number.of_Z 7 |}
                            example_item))
              example_options
              {| opt_alignment := "left"; opt_padding := Number.of_Z 0;
                 opt_scale := "none" |}
              (with_canvas 1080 1920) eq_refl)
    as [r1 [r2 [H1 [H2 [_ [Hscale [Hpos _]]]]]]].
  exists r1, r2. split; [exact H1|]. split; [exact H2|]. split; [exact Hscale|].
  apply Hpos. left. vm_compute. reflexivity.
Defined.

(** X6. For a source that has no size yet (0x0) on a canvas whose sides are
    positive finite numbers, [alignItem] sets both scale components to
    +Infinity; on a portrait canvas the vertical position becomes NaN, on a
    landscape canvas the horizontal position becomes NaN. *)
Theorem alignItem_unloaded_source (sceneItem : ISceneItem)
    (options : AlignmentOptions) (st : State) (mw mh : positive) (ew eh : Z) :
  store_width (settingsStore st) = S754_finite false mw ew ->
  store_height (settingsStore st) = S754_finite false mh eh ->
  input_width (source sceneItem) = S754_zero false ->
  input_height (source sceneItem) = S754_zero false ->
  exists item',
    alignItem sceneItem options st = (inr item', st) /\
    scale item' = {| x := S754_infinity false; y := S754_infinity false |} /\
    (Number.ltb (store_width (settingsStore st))
                (store_height (settingsStore st)) = true ->
     position item' = {| x := Number.of_Z 0; y := S754_nan |}) /\
    (Number.ltb (store_height (settingsStore st))
                (store_width (settingsStore st)) = true ->
     position item' = {| x := S754_nan; y := Number.of_Z 0 |}).
Proof.
  intros Hw Hh Hiw Hih.
  unfold alignItem, bind, gets, ret. rewrite Hw, Hh.
  destruct (Number.ltb (S754_finite false mw ew) (S754_finite false mh eh)) eqn:Hlt.
  - eexists. split; [reflexivity|].
    cbn [scale position set_scale set_position source]. rewrite Hiw, Hih.
    split; [reflexivity|]. split; intros H.
    + reflexivity.
    + rewrite (ltb_asym _ _ Hlt) in H. discriminate.
  - destruct (Number.ltb (S754_finite false mh eh) (S754_finite false mw ew)) eqn:Hgt.
    + eexists. split; [reflexivity|].
      cbn [scale position set_scale set_position source]. rewrite Hiw.
      split; [reflexivity|]. split; intros H; [discriminate|reflexivity].
    + eexists. split; [reflexivity|].
      cbn [scale position set_scale set_position source]. rewrite Hiw.
      split; [reflexivity|]. split; intros H; discriminate.
Qed.

Lemma alignItem_unloaded_source_witness :
  exists item',
    alignItem unloaded_item example_options (with_canvas 1920 1080)
    = (inr item', with_canvas 1920 1080) /\
    scale item' = {| x := S754_infinity false; y := S754_infinity false |} /\
    position item' = {| x := S754_nan; y := Number.of_Z 0 |}.
Proof.
  destruct (alignItem_unloaded_source unloaded_item example_options
              (with_canvas 1920 1080) 8444249301319680 4749890231992320
              (-42) (-42) eq_refl eq_refl eq_refl eq_refl)
    as [item' [Hrun [Hscale [_ Hland]]]].
  exists item'. split; [exact Hrun|]. split; [exact Hscale|].
  apply Hland. vm_compute. reflexivity.
Defined.

(** ** How [addFile] reads the extension *)

Lemma split_app (sep : ascii) (a b : string) :
  Str.split sep (a ++ String sep b)%string = Str.split sep a ++ Str.split sep b.
Proof.
  induction a as [|c a IH]; cbn [String.append Str.split].
  - now rewrite Ascii.eqb_refl.
  - rewrite IH. destruct (Ascii.eqb c sep); [reflexivity|].
    pose proof (split_not_nil sep a) as Hne.
    destruct (Str.split sep a) as [|seg rest]; [contradiction|reflexivity].
Qed.

(** The extension read from [stem.e] is [e] when [e] has no dot. *)
Lemma extension_after_last_dot (stem e : string) :
  has_char "." e = false ->
  Str.index0 (Str.splice_last (Str.split "." (stem ++ String "." e)%string))
  = Some e.
Proof.
  intros Hdot. rewrite extension_defined, split_app, (split_no_sep _ _ Hdot).
  now rewrite last_app_default.
Qed.

Lemma in_table (ext : string) :
  In ext all_extensions ->
  exists type, In type supportedFiles /\
               Str.includes (extensions type) ext = true.
Proof.
  unfold all_extensions. rewrite in_flat_map.
  intros [type [Hin Hext]]. exists type. split; [assumption|].
  now apply includes_In.
Qed.

(** X7. The extension is the text after the last dot of the resolved path:
    for a resolved path [stem.e] where [e] has no dot, [addFile] never
    throws; it creates and returns a source, of the kind of the entry that
    holds the lowercased [e], when [e] lowercased is one of the extensions of
    the table, and returns [null] with the state untouched otherwise. *)
Theorem addFile_by_last_dot (host : Host) (slide : Slide) (stem e : string)
    (st : State) :
  fs_realpathSync host (filePath slide) = Some (stem ++ String "." e)%string ->
  has_char "." e = false ->
  match find (fun t => Str.includes (extensions t) (Str.toLowerCase e))
             supportedFiles with
  | Some type =>
      In (Str.toLowerCase e) all_extensions /\
      exists s st',
        addFile host slide st = (inr (Some s), st') /\
        input_id s = obsName type /\
        In (InputFactory_create (obsName type) (input_name s) (input_settings s))
           (trace st')
  | None =>
      ~ In (Str.toLowerCase e) all_extensions /\
      addFile host slide st = (inr None, st)
  end.
Proof.
  intros Hreal Hdot.
  pose proof (extension_after_last_dot stem e Hdot) as Hext.
  destruct (find (fun t => Str.includes (extensions t) (Str.toLowerCase e))
                 supportedFiles) as [type|] eqn:F.
  - pose proof (find_some _ _ F) as [Hin Hinc].
    split; [exact (table_member _ _ Hin Hinc)|].
    destruct (addFile_settings_table type (filePath slide) Hin)
      as [settings [Hset _]].
    unfold addFile. rewrite Hreal, Hext.
    destruct e as [|c e'].
    + exfalso. apply (table_member _ _ Hin) in Hinc. vm_compute in Hinc.
      repeat (destruct Hinc as [Hinc|Hinc]; [discriminate|]). contradiction.
    + cbn [Str.falsy].
      rewrite (addFile_loop_find host slide _ supportedFiles type settings st
                 F Hset).
      eexists. eexists. split; [reflexivity|]. split; [reflexivity|].
      cbn [trace set_rng set_trace input_name input_settings addFile_calls].
      apply in_or_app. right. left. reflexivity.
  - assert (Hno : ~ In (Str.toLowerCase e) all_extensions).
    { intros Hin. destruct (in_table _ Hin) as [type [Ht Hinc]].
      apply (find_none _ _ F) in Ht. cbn beta in Ht. congruence. }
    split; [exact Hno|].
    unfold addFile. rewrite Hreal, Hext.
    destruct e as [|c e']; [reflexivity|]. cbn [Str.falsy].
    apply addFile_loop_none. apply not_in_table. exact Hno.
Qed.

Lemma addFile_by_last_dot_witness :
  (exists s st',
      addFile linking_host {| filePath := "/shows/link.txt" |} example_state
      = (inr (Some s), st') /\
      input_id s = "ffmpeg_source" /\
      input_settings s = [("is_local_file", JBool true);
                          ("local_file", JStr "/shows/link.txt");
                          ("looping", JBool true)]) /\
  addFile linking_host {| filePath := "/shows/archive.tar.gz" |} example_state
  = (inr None, example_state).
Proof.
  split.
  - pose proof (addFile_by_last_dot linking_host {| filePath := "/shows/link.txt" |}
                  "/media/v1.2/clip.final" "MKV" example_state eq_refl eq_refl)
      as H.
    cbn [find] in H. vm_compute Str.toLowerCase in H.
    cbv [Str.includes existsb extensions supportedFiles find String.eqb
         Ascii.eqb Bool.eqb orb] in H.
    destruct H as [_ [s [st' [Hrun [Hid _]]]]].
    exists s, st'. split; [exact Hrun|]. split; [exact Hid|].
    pose proof Hrun as Hrun'. vm_compute in Hrun'. injection Hrun' as <- _.
    reflexivity.
  - pose proof (addFile_by_last_dot linking_host
                  {| filePath := "/shows/archive.tar.gz" |}
                  "/shows/archive.tar" "gz" example_state eq_refl eq_refl) as H.
    vm_compute Str.toLowerCase in H.
    cbv [Str.includes existsb extensions supportedFiles find String.eqb
         Ascii.eqb Bool.eqb orb] in H.
    exact (proj2 H).
Defined.

(** X8. A resolved path whose last dot is in a directory name has no
    extension of the table: when the text after the last dot holds a path
    separator, [addFile] returns [null] and leaves the state untouched. *)
Theorem addFile_dot_in_directory (host : Host) (slide : Slide) (stem e : string)
    (st : State) :
  fs_realpathSync host (filePath slide) = Some (stem ++ String "." e)%string ->
  has_char "." e = false ->
  has_separator e = true ->
  addFile host slide st = (inr None, st).
Proof.
  intros Hreal Hdot Hsep.
  unfold addFile. rewrite Hreal, (extension_after_last_dot stem e Hdot).
  destruct e as [|c e']; [reflexivity|]. cbn [Str.falsy].
  apply addFile_loop_none. apply not_in_table. intros Hin.
  apply table_no_separator in Hin. unfold has_separator in *.
  rewrite !has_char_toLowerCase in Hin by auto. congruence.
Qed.

Lemma addFile_dot_in_directory_witness :
  addFile example_host {| filePath := "/srv/shows.d/png" |} example_state
  = (inr None, example_state).
Proof.
  apply (addFile_dot_in_directory example_host _ "/srv/shows" "d/png");
    reflexivity.
Defined.

(** ** The filters of the file dialog *)

Lemma reduce_push (filters : list SupportedFilesFilters.FileFilter)
    (acc : list string) :
  fold_left (fun p c => p ++ SupportedFilesFilters.extensions c) filters acc
  = acc ++ flat_map SupportedFilesFilters.extensions filters.
Proof.
  revert acc. induction filters as [|f filters IH]; intros acc; cbn.
  - now rewrite app_nil_r.
  - now rewrite IH, app_assoc.
Qed.

(** The head filter of the filters of a table lists the extensions of all
    its entries, in order. *)
Lemma filters_of_head (files : list SupportedFileType) :
  hd_error (SupportedFilesFilters.filters_of files)
  = Some {| SupportedFilesFilters.name := "All supported files";
            SupportedFilesFilters.extensions := flat_map extensions files |}.
Proof.
  unfold SupportedFilesFilters.filters_of. cbn [hd_error]. do 2 f_equal.
  rewrite reduce_push. cbn [app].
  induction files as [|f files IH]; [reflexivity|].
  cbn [map flat_map SupportedFilesFilters.extensions]. now rewrite IH.
Qed.

(** X9. For any table, the filters built from it are one more than its
    entries: first the filter "All supported files", whose extensions are
    those of all the entries in table order, then one filter per entry, in
    order, with the entry's pretty name and extensions.  So an extension is
    admitted by the first filter exactly when one of the other filters
    admits it. *)
Theorem filters_of_table (files : list SupportedFileType) :
  exists all rest,
    SupportedFilesFilters.filters_of files = all :: rest /\
    SupportedFilesFilters.name all = "All supported files" /\
    SupportedFilesFilters.extensions all = flat_map extensions files /\
    map SupportedFilesFilters.name rest = map prettyName files /\
    map SupportedFilesFilters.extensions rest = map extensions files /\
    (forall ext,
        In ext (SupportedFilesFilters.extensions all) <->
        exists f, In f rest /\ In ext (SupportedFilesFilters.extensions f)).
Proof.
  pose proof (filters_of_head files) as Hhd.
  unfold SupportedFilesFilters.filters_of in *. cbn [hd_error] in Hhd.
  injection Hhd as Hhd.
  eexists. eexists. split; [reflexivity|].
  cbn [SupportedFilesFilters.name SupportedFilesFilters.extensions].
  split; [reflexivity|]. split; [exact Hhd|].
  split; [|split].
  - rewrite map_map. reflexivity.
  - rewrite map_map. reflexivity.
  - intros ext. rewrite Hhd, in_flat_map. split.
    + intros [t [Ht He]].
      exists {| SupportedFilesFilters.name := prettyName t;
                SupportedFilesFilters.extensions := extensions t |}.
      split; [|exact He].
      apply in_map_iff. exists t. split; [reflexivity|exact Ht].
    + intros [f [Hf He]]. apply in_map_iff in Hf as [t [<- Ht]].
      exists t. split; [exact Ht|exact He].
Qed.

(** X10. The dialog and [addFile] agree: for a resolved path [stem.e] where
    [e] has no dot, [addFile] returns a source exactly when the lowercased
    [e] is listed by the filter "All supported files", and [null]
    otherwise. *)
Theorem addFile_agrees_with_filter (host : Host) (slide : Slide)
    (stem e : string) (st : State) :
  fs_realpathSync host (filePath slide) = Some (stem ++ String "." e)%string ->
  has_char "." e = false ->
  exists all,
    hd_error SupportedFilesFilters.supportedFilesFilters = Some all /\
    SupportedFilesFilters.name all = "All supported files" /\
    (Str.includes (SupportedFilesFilters.extensions all) (Str.toLowerCase e)
     = true ->
     exists s, fst (addFile host slide st) = inr (Some s)) /\
    (Str.includes (SupportedFilesFilters.extensions all) (Str.toLowerCase e)
     = false ->
     addFile host slide st = (inr None, st)).
Proof.
  intros Hreal Hdot.
  pose proof (extension_after_last_dot stem e Hdot) as Hext.
  eexists. split; [apply filters_of_head|].
  cbn [SupportedFilesFilters.name SupportedFilesFilters.extensions].
  split; [reflexivity|].
  fold all_extensions. split; intros Hinc.
  - apply includes_In in Hinc.
    destruct (in_table _ Hinc) as [type [Ht Htinc]].
    pose proof (table_find type _ Ht Htinc) as F.
    destruct (addFile_settings_table type (filePath slide) Ht)
      as [settings [Hset _]].
    unfold addFile. rewrite Hreal, Hext.
    destruct e as [|c e'].
    + exfalso. vm_compute in Hinc.
      repeat (destruct Hinc as [Hinc|Hinc]; [discriminate|]). contradiction.
    + cbn [Str.falsy].
      rewrite (addFile_loop_find host slide _ supportedFiles type settings st
                 F Hset).
      eexists. reflexivity.
  - assert (Hno : ~ In (Str.toLowerCase e) all_extensions).
    { intros Hin. apply includes_In in Hin. congruence. }
    unfold addFile. rewrite Hreal, Hext.
    destruct e as [|c e']; [reflexivity|]. cbn [Str.falsy].
    apply addFile_loop_none. apply not_in_table. exact Hno.
Qed.

Lemma addFile_agrees_with_filter_witness :
  (exists s, fst (addFile example_host {| filePath := "/shows/title.JPeG" |}
                          example_state) = inr (Some s)) /\
  addFile example_host {| filePath := "/shows/title.svg" |} example_state
  = (inr None, example_state).
Proof.
  split.
  - destruct (addFile_agrees_with_filter example_host
                {| filePath := "/shows/title.JPeG" |} "/shows/title" "JPeG"
                example_state eq_refl eq_refl) as [all [Hhd [_ [Hyes _]]]].
    injection Hhd as <-. apply Hyes. reflexivity.
  - destruct (addFile_agrees_with_filter example_host
                {| filePath := "/shows/title.svg" |} "/shows/title" "svg"
                example_state eq_refl eq_refl) as [all [Hhd [_ [_ Hno]]]].
    injection Hhd as <-. apply Hno. reflexivity.
Defined.

(** ** The timer of [addFile] *)

(** X11. When [addFile] creates a source, the last thing it does is to arm a
    timer of 1000 ms; the scene named in that timer is the scene the returned
    source was added to, and when the timer's callback runs it logs, looks
    that scene up by name and starts a transition of 300 ms to it. *)
Theorem addFile_timer_targets_scene (host : Host) (slide : Slide)
    (realpath e : string) (type : SupportedFileType) (st : State) :
  fs_realpathSync host (filePath slide) = Some realpath ->
  Str.index0 (Str.splice_last (Str.split "." realpath)) = Some e ->
  In type supportedFiles ->
  Str.includes (extensions type) (Str.toLowerCase e) = true ->
  exists s st' sceneId,
    addFile host slide st = (inr (Some s), st') /\
    last (trace st') (console_log "") = setTimeout (addFile_transition sceneId) 1000 /\
    In (Scene_add sceneId s) (trace st') /\
    run_callback (addFile_transition sceneId) st'
    = (inr tt,
       set_trace (trace st' ++ [console_log "transition";
                                SceneFactory_fromName sceneId;
                                Transition_start 300 sceneId]) st').
Proof.
  intros Hreal Hext Hin Hinc.
  pose proof (table_find type _ Hin Hinc) as F.
  destruct (addFile_settings_table type (filePath slide) Hin)
    as [settings [Hset _]].
  unfold addFile. rewrite Hreal, Hext.
  destruct e as [|c e'].
  - exfalso. apply (table_member _ _ Hin) in Hinc. vm_compute in Hinc.
    repeat (destruct Hinc as [Hinc|Hinc]; [discriminate|]). contradiction.
  - cbn [Str.falsy].
    rewrite (addFile_loop_find host slide _ supportedFiles type settings st
               F Hset).
    eexists. eexists. eexists. split; [reflexivity|].
    cbn [trace set_rng set_trace]. split; [|split].
    + rewrite last_app_default. reflexivity.
    + apply in_or_app. right. right. right. left. reflexivity.
    + unfold run_callback, transitionTo, bind, emit, modify, set_trace, set_rng.
      cbn. rewrite <- !app_assoc. reflexivity.
Qed.

Lemma addFile_timer_targets_scene_witness :
  exists s st' sceneId,
    addFile example_host {| filePath := "/shows/credits.txt" |} example_state
    = (inr (Some s), st') /\
    last (trace st') (console_log "")
    = setTimeout (addFile_transition sceneId) 1000 /\
    In (Scene_add sceneId s) (trace st').
Proof.
  destruct (addFile_timer_targets_scene example_host
              {| filePath := "/shows/credits.txt" |} "/shows/credits.txt" "txt"
              {| extensions := ["txt"]; prettyName := "Text files";
                 obsName := "text_gdiplus" |} example_state)
    as [s [st' [sceneId [Hrun [Hlast [Hadd _]]]]]].
  - reflexivity.
  - reflexivity.
  - simpl; auto.
  - reflexivity.
  - exists s, st', sceneId. auto.
Defined.

(** ** [setSetting] beyond the claims *)

(** The two ways [setSetting] ends on a category the engine holds. *)
Lemma setSetting_run (host : Host) (category parameter : string)
    (value : jsval) (st : State) (settings : SettingsContainer) :
  get_property (engineSettings st) category = Some settings ->
  setSetting host category parameter value st
  = if loose_eq (StringToNumber host) value (current_value parameter settings)
    then (inr tt, st)
    else (inr tt,
          set_engineSettings
            (put_property (engineSettings st) category
                          (update_container parameter value settings))
            (set_trace
               (trace st ++ [OBS_settings_saveSettings category
                               (update_container parameter value settings)])
               st)).
Proof.
  intros Hget. unfold setSetting, bind at 1, gets at 1. rewrite Hget.
  rewrite setSetting_subCategories_spec. fold (current_value parameter settings).
  destruct (loose_eq (StringToNumber host) value
                     (current_value parameter settings)); reflexivity.
Qed.

Lemma update_parameter_name (parameter : string) (value : jsval)
    (p : SettingsParameter) :
  name (update_parameter parameter value p) = name p /\
  description (update_parameter parameter value p) = description p.
Proof.
  unfold update_parameter. destruct (String.eqb (name p) parameter); auto.
Qed.

Lemma current_values_updated (q parameter : string) (value : jsval)
    (ps : list SettingsParameter) :
  map currentValue
      (filter (fun p => String.eqb (name p) q)
              (map (update_parameter parameter value) ps))
  = if String.eqb q parameter
    then map (fun _ => value)
             (map currentValue
                  (filter (fun p => String.eqb (name p) parameter) ps))
    else map currentValue (filter (fun p => String.eqb (name p) q) ps).
Proof.
  induction ps as [|p ps IH].
  - cbn. destruct (String.eqb q parameter); reflexivity.
  - cbn [map filter].
    rewrite (proj1 (update_parameter_name parameter value p)).
    destruct (String.eqb_spec q parameter) as [->|Hq].
    + destruct (String.eqb (name p) parameter) eqn:E.
      * cbn [map]. rewrite IH. unfold update_parameter. rewrite E. reflexivity.
      * exact IH.
    + destruct (String.eqb_spec (name p) q) as [Hn|Hn].
      * cbn [map]. rewrite IH. unfold update_parameter.
        destruct (String.eqb_spec (name p) parameter) as [Hp|_];
          [congruence|reflexivity].
      * exact IH.
Qed.

Lemma current_values_update_container (q parameter : string) (value : jsval)
    (settings : SettingsContainer) :
  current_values q (update_container parameter value settings)
  = if String.eqb q parameter
    then map (fun _ => value) (current_values parameter settings)
    else current_values q settings.
Proof.
  unfold update_container, current_values.
  induction settings as [|c cs IH].
  - cbn. destruct (String.eqb q parameter); reflexivity.
  - cbn [map flat_map parameters set_parameters].
    rewrite IH, current_values_updated.
    destruct (String.eqb q parameter); [|reflexivity].
    now rewrite map_app.
Qed.

(** X14. The container [setSetting] hands to the engine differs from the one
    it read in the values of the parameters named [parameter] only: the
    sub-categories, and the names and descriptions of their parameters, are
    the same in the same order; every parameter named [parameter], in any
    sub-category, holds [value]; every parameter of another name keeps its
    value. *)
Theorem setSetting_container (parameter : string) (value oldValue : jsval)
    (settings : SettingsContainer) :
  let settings' :=
    fst (setSetting_subCategories parameter value settings oldValue) in
  map nameSubCategory settings' = map nameSubCategory settings /\
  map (fun c => map name (parameters c)) settings'
  = map (fun c => map name (parameters c)) settings /\
  map (fun c => map description (parameters c)) settings'
  = map (fun c => map description (parameters c)) settings /\
  current_values parameter settings'
  = map (fun _ => value) (current_values parameter settings) /\
  (forall q, q <> parameter ->
             current_values q settings' = current_values q settings).
Proof.
  cbn zeta. rewrite setSetting_subCategories_spec. cbn [fst].
  unfold update_container, current_values.
  split; [|split; [|split; [|split]]].
  - rewrite map_map. reflexivity.
  - rewrite map_map. apply map_ext. intros c. cbn [parameters set_parameters].
    rewrite map_map. apply map_ext. intros p.
    apply (update_parameter_name parameter value p).
  - rewrite map_map. apply map_ext. intros c. cbn [parameters set_parameters].
    rewrite map_map. apply map_ext. intros p.
    apply (update_parameter_name parameter value p).
  - pose proof (current_values_update_container parameter parameter value
                  settings) as H.
    rewrite String.eqb_refl in H. exact H.
  - intros q Hq.
    pose proof (current_values_update_container q parameter value settings) as H.
    destruct (String.eqb_spec q parameter); [contradiction|exact H].
Qed.

Lemma update_container_absent (parameter : string) (value : jsval)
    (settings : SettingsContainer) :
  current_values parameter settings = [] ->
  update_container parameter value settings = settings.
Proof.
  unfold current_values, update_container.
  induction settings as [|c cs IH]; [reflexivity|].
  cbn [flat_map map]. intros H. apply app_eq_nil in H as [Hc Hcs].
  rewrite (IH Hcs). f_equal.
  destruct c as [nm ps]. unfold set_parameters. cbn [nameSubCategory parameters] in *.
  f_equal. induction ps as [|p ps IHp]; [reflexivity|].
  cbn [filter map] in *. unfold update_parameter at 1.
  destruct (String.eqb (name p) parameter); [discriminate|].
  now rewrite IHp.
Qed.

(** X15. When the container has no parameter named [parameter], the value
    compared with is [undefined]: [setSetting] with [null] or [undefined]
    issues no call, and [setSetting] with any other value saves the container
    exactly as it was read. *)
Theorem setSetting_absent_parameter (host : Host) (category parameter : string)
    (value : jsval) (st : State) (settings : SettingsContainer) :
  get_property (engineSettings st) category = Some settings ->
  current_values parameter settings = [] ->
  (value = JUndefined \/ value = JNull ->
   setSetting host category parameter value st = (inr tt, st)) /\
  (value <> JUndefined -> value <> JNull ->
   setSetting host category parameter value st
   = (inr tt,
      set_engineSettings (put_property (engineSettings st) category settings)
        (set_trace (trace st ++ [OBS_settings_saveSettings category settings])
                   st))).
Proof.
  intros Hget Habs.
  rewrite (setSetting_run host _ _ _ _ _ Hget).
  unfold current_value. rewrite Habs, (update_container_absent _ _ _ Habs).
  cbn [last]. split.
  - intros [->| ->]; reflexivity.
  - intros H1 H2. destruct value; try contradiction; reflexivity.
Qed.

Lemma setSetting_absent_parameter_witness :
  trace (snd (setSetting example_host "Output" "VBitrate"
                         (JNum (Number.of_Z 10000)) example_state))
  = [OBS_settings_saveSettings "Output"
       [ {| nameSubCategory := "Untitled";
            parameters := [ {| name := "Mode"; description := "Output Mode";
                               currentValue := JStr "Simple" |} ] |};
         {| nameSubCategory := "Recording";
            parameters := [ {| name := "RecFormat";
                               description := "Recording Format";
                               currentValue := JStr "flv" |} ] |} ]] /\
  setSetting example_host "Output" "VBitrate" JNull example_state
  = (inr tt, example_state).
Proof.
  destruct (setSetting_absent_parameter example_host "Output" "VBitrate"
              (JNum (Number.of_Z 10000)) example_state _ eq_refl eq_refl)
    as [_ Hsave].
  destruct (setSetting_absent_parameter example_host "Output" "VBitrate"
              JNull example_state _ eq_refl eq_refl) as [Hnull _].
  split.
  - rewrite Hsave by discriminate. reflexivity.
  - apply Hnull. now right.
Defined.

Lemma get_put_property {A : Type} (obj : list (string * A)) (key : string)
    (v : A) :
  get_property (put_property obj key v) key = Some v.
Proof.
  induction obj as [|[k w] rest IH]; cbn.
  - now rewrite String.eqb_refl.
  - destruct (String.eqb k key) eqn:E; cbn; rewrite E; [reflexivity|exact IH].
Qed.

Lemma last_map_const {A B : Type} (l : list A) (v d : B) :
  l <> [] -> last (map (fun _ => v) l) d = v.
Proof.
  revert d. induction l as [|a l IH]; intros d; [contradiction|intros _].
  cbn [map]. rewrite last_cons_default.
  destruct l as [|b l]; [reflexivity|]. apply IH. discriminate.
Qed.

(** X16. With an engine that answers with the container it was last given,
    setting a parameter that the container has to a value equal to itself
    (any value but NaN) a second time issues no call: the second [setSetting]
    leaves the state of the first. *)
Theorem setSetting_twice (host : Host) (category parameter : string)
    (value : jsval) (st : State) (settings : SettingsContainer) :
  get_property (engineSettings st) category = Some settings ->
  current_values parameter settings <> [] ->
  loose_eq (StringToNumber host) value value = true ->
  exists st1,
    setSetting host category parameter value st = (inr tt, st1) /\
    setSetting host category parameter value st1 = (inr tt, st1).
Proof.
  intros Hget Hocc Hrefl.
  rewrite (setSetting_run host _ _ _ _ _ Hget).
  destruct (loose_eq (StringToNumber host) value
                     (current_value parameter settings)) eqn:E.
  - exists st. split; [reflexivity|].
    rewrite (setSetting_run host _ _ _ _ _ Hget), E. reflexivity.
  - eexists. split; [reflexivity|].
    erewrite setSetting_run
      by (cbn [engineSettings set_engineSettings set_trace];
          apply get_put_property).
    assert (Hcur : current_value parameter
                     (update_container parameter value settings) = value).
    { unfold current_value.
      rewrite current_values_update_container, String.eqb_refl.
      now apply last_map_const. }
    rewrite Hcur, Hrefl. reflexivity.
Qed.

Lemma setSetting_twice_witness :
  exists st1,
    setSetting example_host "Output" "RecFormat" (JStr "mkv") example_state
    = (inr tt, st1) /\
    List.length (trace st1) = 1%nat /\
    setSetting example_host "Output" "RecFormat" (JStr "mkv") st1 = (inr tt, st1).
Proof.
  destruct (setSetting_twice example_host "Output" "RecFormat" (JStr "mkv")
              example_state _ eq_refl) as [st1 [H1 H2]].
  - discriminate.
  - reflexivity.
  - exists st1. split; [exact H1|]. split; [|exact H2].
    pose proof H1 as H1'. vm_compute in H1'. injection H1' as <-. reflexivity.
Defined.

Lemma setSetting_container_witness :
  current_values "RecFormat"
    (fst (setSetting_subCategories "Mode" (JStr "Advanced")
            (match get_property (engineSettings example_state) "Output" with
             | Some c => c
             | None => []
             end) JUndefined))
  = [JStr "flv"].
Proof.
  destruct (setSetting_container "Mode" (JStr "Advanced") JUndefined
              (match get_property (engineSettings example_state) "Output" with
               | Some c => c
               | None => []
               end)) as [_ [_ [_ [_ Hother]]]].
  rewrite (Hother "RecFormat") by discriminate. reflexivity.
Defined.

Lemma filters_of_table_witness :
  exists all rest,
    SupportedFilesFilters.supportedFilesFilters = all :: rest /\
    List.length rest = 4%nat /\
    In "webm" (SupportedFilesFilters.extensions all).
Proof.
  destruct (filters_of_table supportedFiles)
    as [all [rest [Heq [_ [_ [Hnames [_ Hiff]]]]]]].
  exists all, rest. split; [exact Heq|]. split.
  - rewrite <- (length_map SupportedFilesFilters.name), Hnames. reflexivity.
  - apply Hiff.
    unfold SupportedFilesFilters.filters_of in Heq. injection Heq as _ <-.
    exists {| SupportedFilesFilters.name := "Video files";
              SupportedFilesFilters.extensions := extensions video_files |}.
    split; cbn; auto 20.
Defined.

(** ** The device list beyond the claim *)

Section DeviceListMore.

Import MobileService.

Lemma filter_mobiles_survivors (b : JsonBody) (l : list ConnectedMobile) :
  Forall (fun d => device d <> None) l ->
  filter_mobiles (Some b) l = inr (filter (survives (body_deviceId b)) l).
Proof.
  induction 1 as [|d l Hd _ IH]; [reflexivity|].
  cbn [filter_mobiles filter]. unfold survives at 1.
  destruct (device d) as [dev|]; [|contradiction].
  rewrite IH. reflexivity.
Qed.

Lemma filter_defined {A : Type} (P : A -> Prop) (f : A -> bool) (l : list A) :
  Forall P l -> Forall P (filter f l).
Proof.
  induction 1 as [|d l Hd _ IH]; cbn; [constructor|].
  destruct (f d); [constructor; assumption|assumption].
Qed.

Lemma filter_comm {A : Type} (f g : A -> bool) (l : list A) :
  filter f (filter g l) = filter g (filter f l).
Proof.
  induction l as [|a l IH]; [reflexivity|]. cbn.
  destruct (f a) eqn:Ef, (g a) eqn:Eg; cbn; rewrite ?Ef, ?Eg, IH; reflexivity.
Qed.

Lemma filter_idem {A : Type} (f : A -> bool) (l : list A) :
  filter f (filter f l) = filter f l.
Proof.
  induction l as [|a l IH]; [reflexivity|]. cbn.
  destruct (f a) eqn:Ef; cbn; rewrite ?Ef, IH; reflexivity.
Qed.

Lemma disconnect_defined (b : JsonBody) (st : State) :
  Forall (fun d => device d <> None) (connectedMobiles st) ->
  disconnect {| jsonBody := Some b |} st
  = (inr success_true,
     set_connectedMobiles
       (filter (survives (body_deviceId b)) (connectedMobiles st)) st).
Proof.
  intros Hdef. unfold disconnect, bind, gets, modify, ret. cbn [jsonBody].
  now rewrite (filter_mobiles_survivors b _ Hdef).
Qed.

(** X17. On a list whose elements are devices, [/disconnect] with device id
    [a] answers success and keeps, in their order, exactly the elements whose
    UUID is not [a]: none of UUID [a] is left, none of another UUID is lost,
    and the same request again changes nothing. *)
Theorem disconnect_removes_uuid (st : State) (a : string) :
  Forall (fun d => device d <> None) (connectedMobiles st) ->
  exists st',
    disconnect (disconnect_request a) st = (inr success_true, st') /\
    connectedMobiles st'
    = filter (fun d => negb (has_uuid a d)) (connectedMobiles st) /\
    Forall (fun d => has_uuid a d = false) (connectedMobiles st') /\
    (forall d, In d (connectedMobiles st) -> has_uuid a d = false ->
               In d (connectedMobiles st')) /\
    disconnect (disconnect_request a) st' = (inr success_true, st').
Proof.
  intros Hdef.
  assert (Hsurv : forall l : list ConnectedMobile,
             Forall (fun d => device d <> None) l ->
             filter (survives (JStr a)) l = filter (fun d => negb (has_uuid a d)) l).
  { intros l Hl. apply filter_ext_in. intros d Hd.
    rewrite Forall_forall in Hl. specialize (Hl d Hd).
    unfold survives, has_uuid. destruct (device d); [reflexivity|contradiction]. }
  unfold disconnect_request.
  rewrite (disconnect_defined _ st Hdef). cbn [body_deviceId].
  rewrite (Hsurv _ Hdef).
  eexists. split; [reflexivity|].
  cbn [connectedMobiles set_connectedMobiles]. split; [reflexivity|].
  split; [|split].
  - apply Forall_forall. intros d Hd. apply filter_In in Hd as [_ Hd].
    now apply negb_true_iff in Hd.
  - intros d Hd Hu. apply filter_In. split; [exact Hd|]. now rewrite Hu.
  - rewrite disconnect_defined;
      cbn [connectedMobiles set_connectedMobiles body_deviceId expressRunning].
    + rewrite (Hsurv _ (filter_defined _ _ _ Hdef)), filter_idem. reflexivity.
    + now apply filter_defined.
Qed.

Lemma disconnect_removes_uuid_witness :
  connectedMobiles
    (snd (disconnect (disconnect_request "A")
            (service_with [example_device "A"; example_device "B";
                           example_device "A"; example_device "C"])))
  = connectedMobiles (service_with [example_device "B"; example_device "C"]).
Proof.
  destruct (disconnect_removes_uuid
              (service_with [example_device "A"; example_device "B";
                             example_device "A"; example_device "C"]) "A")
    as [st' [Hrun [Hlist _]]].
  - repeat constructor; discriminate.
  - rewrite Hrun. cbn [snd]. rewrite Hlist. reflexivity.
Defined.

(** X18. On a list whose elements are devices, two [/disconnect] requests
    commute: whatever their device ids, both orders answer success twice and
    end in the same state. *)
Theorem disconnect_commutes (st : State) (b1 b2 : JsonBody) :
  Forall (fun d => device d <> None) (connectedMobiles st) ->
  exists st1 st2 st12,
    disconnect {| jsonBody := Some b1 |} st = (inr success_true, st1) /\
    disconnect {| jsonBody := Some b2 |} st1 = (inr success_true, st12) /\
    disconnect {| jsonBody := Some b2 |} st = (inr success_true, st2) /\
    disconnect {| jsonBody := Some b1 |} st2 = (inr success_true, st12).
Proof.
  intros Hdef.
  eexists. eexists. eexists.
  split; [apply (disconnect_defined b1 st Hdef)|].
  split; [apply disconnect_defined; now apply filter_defined|].
  split; [apply (disconnect_defined b2 st Hdef)|].
  rewrite disconnect_defined by now apply filter_defined.
  cbn [connectedMobiles set_connectedMobiles expressRunning].
  now rewrite filter_comm.
Qed.

Lemma disconnect_commutes_witness :
  snd (disconnect (disconnect_request "B")
         (snd (disconnect (disconnect_request "A")
                 (service_with [example_device "A"; example_device "B";
                                example_device "C"]))))
  = snd (disconnect (disconnect_request "A")
           (snd (disconnect (disconnect_request "B")
                   (service_with [example_device "A"; example_device "B";
                                  example_device "C"])))).
Proof.
  destruct (disconnect_commutes
              (service_with [example_device "A"; example_device "B";
                             example_device "C"])
              {| body_device := None; body_deviceId := JStr "A" |}
              {| body_device := None; body_deviceId := JStr "B" |})
    as [st1 [st2 [st12 [H1 [H12 [H2 H21]]]]]].
  - repeat constructor; discriminate.
  - unfold disconnect_request. rewrite H1, H2. cbn [snd]. rewrite H12, H21.
    reflexivity.
Defined.

Lemma filter_mobiles_poisoned (body : option JsonBody) (l : list ConnectedMobile) :
  In {| device := None |} l -> exists e, filter_mobiles body l = inl e.
Proof.
  induction l as [|d l IH]; [contradiction|].
  intros [Hd|Hin]; cbn [filter_mobiles].
  - subst d. cbn. eauto.
  - destruct (device d); [|eauto].
    destruct body as [b|]; [|eauto].
    destruct (IH Hin) as [e He]. rewrite He. eauto.
Qed.

(** X19. [/connect] with a body that has no [device] answers success and
    appends an element without device; on any list that holds such an
    element every [/disconnect], whatever its body, throws and leaves the
    list as it is, so no device can be removed from it. *)
Theorem connect_without_device_blocks_disconnect (st : State) (deviceId : jsval) :
  exists st1,
    connect {| jsonBody := Some {| body_device := None;
                                   body_deviceId := deviceId |} |} st
    = (inr success_true, st1) /\
    connectedMobiles st1 = connectedMobiles st ++ [{| device := None |}] /\
    forall (st2 : State) (req : Request),
      In {| device := None |} (connectedMobiles st2) ->
      exists e, disconnect req st2 = (inl e, st2).
Proof.
  eexists. split; [reflexivity|]. split; [reflexivity|].
  intros st2 req Hin. unfold disconnect, bind, gets, throw.
  destruct (filter_mobiles_poisoned (jsonBody req) _ Hin) as [e He].
  rewrite He. eauto.
Qed.

Lemma connect_without_device_blocks_disconnect_witness :
  exists e,
    disconnect (disconnect_request "A")
      (snd (connect {| jsonBody := Some {| body_device := None;
                                           body_deviceId := JUndefined |} |}
                    (service_with [example_device "A"])))
    = (inl e,
       snd (connect {| jsonBody := Some {| body_device := None;
                                           body_deviceId := JUndefined |} |}
                    (service_with [example_device "A"]))).
Proof.
  destruct (connect_without_device_blocks_disconnect
              (service_with [example_device "A"]) JUndefined)
    as [st1 [Hrun [Hlist Hblock]]].
  rewrite Hrun. cbn [snd]. apply Hblock. rewrite Hlist.
  apply in_or_app. right. left. reflexivity.
Defined.

(** X20. A request whose body is [null]: [/connect] throws and leaves the
    list as it is; [/disconnect] answers success on an empty list, where the
    body is never read, and throws, leaving the list as it is, on any other
    list. *)
Theorem null_body_requests (st : State) :
  (exists e, connect null_request st = (inl e, st)) /\
  (connectedMobiles st = [] ->
   disconnect null_request st = (inr success_true, st)) /\
  (connectedMobiles st <> [] ->
   exists e, disconnect null_request st = (inl e, st)).
Proof.
  split; [eexists; reflexivity|]. split.
  - intros Hnil. unfold disconnect, bind, gets, modify, ret.
    rewrite Hnil. cbn. rewrite <- Hnil. now rewrite set_connectedMobiles_same.
  - intros Hne. unfold disconnect, bind, gets, throw.
    destruct (connectedMobiles st) as [|d l]; [contradiction|].
    cbn. destruct (device d); eauto.
Qed.

Lemma null_body_requests_witness :
  disconnect null_request (service_with []) = (inr success_true, service_with []) /\
  exists e, disconnect null_request (service_with [example_device "A"])
            = (inl e, service_with [example_device "A"]).
Proof.
  destruct (null_body_requests (service_with [])) as [_ [Hempty _]].
  destruct (null_body_requests (service_with [example_device "A"]))
    as [_ [_ Hfull]].
  split; [apply Hempty; reflexivity|apply Hfull; discriminate].
Defined.

(** X21. The device id is compared without conversion: on a list whose
    elements are devices, [/disconnect] with a device id that is not a
    string (absent, [null], a number, a boolean) answers success and removes
    nothing. *)
Theorem disconnect_non_string_id (st : State) (b : JsonBody) :
  Forall (fun d => device d <> None) (connectedMobiles st) ->
  (forall a, body_deviceId b <> JStr a) ->
  disconnect {| jsonBody := Some b |} st = (inr success_true, st).
Proof.
  intros Hdef Hid. rewrite (disconnect_defined b st Hdef).
  rewrite filter_all; [now rewrite set_connectedMobiles_same|].
  apply Forall_forall. intros d _. unfold survives.
  destruct (device d); [|reflexivity].
  destruct (body_deviceId b) as [| | | |a]; try reflexivity.
  exfalso. now apply (Hid a).
Qed.

Lemma disconnect_non_string_id_witness :
  disconnect {| jsonBody := Some {| body_device := None;
                                    body_deviceId := JNum (Number.of_Z 7) |} |}
             (service_with [example_device "7"])
  = (inr success_true, service_with [example_device "7"]).
Proof.
  apply disconnect_non_string_id.
  - repeat constructor; discriminate.
  - discriminate.
Defined.

End DeviceListMore.

(** ** Two calls of [addFile] in a row *)

(** The run of [addFile] on a supported file. *)
Lemma addFile_run_supported (host : Host) (slide : Slide) (realpath e : string)
    (type : SupportedFileType) (st : State) :
  fs_realpathSync host (filePath slide) = Some realpath ->
  Str.index0 (Str.splice_last (Str.split "." realpath)) = Some e ->
  In type supportedFiles ->
  Str.includes (extensions type) (Str.toLowerCase e) = true ->
  exists settings,
    let id := (obsName type ++ "_" ++ uuid_v4 host (rng st))%string in
    let s := {| input_id := obsName type; input_name := id;
                input_settings := settings;
                input_width := fst (media_size host (obsName type) settings);
                input_height := snd (media_size host (obsName type) settings) |} in
    let sceneId := Number_toString host (Math_random host (S (rng st))) in
    addFile host slide st
    = (inr (Some s),
       set_rng (S (S (rng st)))
         (set_trace
            (trace st ++ addFile_calls (obsName type) id settings sceneId s) st)).
Proof.
  intros Hreal Hext Hin Hinc.
  pose proof (table_find type _ Hin Hinc) as F.
  destruct (addFile_settings_table type (filePath slide) Hin)
    as [settings [Hset _]].
  exists settings. unfold addFile. rewrite Hreal, Hext.
  destruct e as [|c e'].
  - exfalso. apply (table_member _ _ Hin) in Hinc. vm_compute in Hinc.
    repeat (destruct Hinc as [Hinc|Hinc]; [discriminate|]). contradiction.
  - cbn [Str.falsy].
    exact (addFile_loop_find host slide _ supportedFiles type settings st F Hset).
Qed.

Lemma armed_timers_app (a b : list Event) :
  armed_timers (a ++ b) = armed_timers a ++ armed_timers b.
Proof. apply flat_map_app. Qed.

(** X22. Two calls of [addFile] on supported files, one after the other:
    the second does not disturb what the first set up.  Four random values
    are drawn in all, the two sources are named after the first and the third,
    the two scenes after the second and the fourth, and both timers are
    armed, in call order, each for the scene of its own call. *)
Theorem addFile_twice (host : Host) (slide1 slide2 : Slide)
    (realpath1 e1 realpath2 e2 : string) (type1 type2 : SupportedFileType)
    (st : State) :
  fs_realpathSync host (filePath slide1) = Some realpath1 ->
  Str.index0 (Str.splice_last (Str.split "." realpath1)) = Some e1 ->
  In type1 supportedFiles ->
  Str.includes (extensions type1) (Str.toLowerCase e1) = true ->
  fs_realpathSync host (filePath slide2) = Some realpath2 ->
  Str.index0 (Str.splice_last (Str.split "." realpath2)) = Some e2 ->
  In type2 supportedFiles ->
  Str.includes (extensions type2) (Str.toLowerCase e2) = true ->
  exists s1 st1 s2 st2,
    addFile host slide1 st = (inr (Some s1), st1) /\
    addFile host slide2 st1 = (inr (Some s2), st2) /\
    rng st2 = (rng st + 4)%nat /\
    input_name s1 = (obsName type1 ++ "_" ++ uuid_v4 host (rng st))%string /\
    input_name s2 = (obsName type2 ++ "_" ++ uuid_v4 host (rng st + 2))%string /\
    armed_timers (trace st2)
    = armed_timers (trace st)
      ++ [(addFile_transition
             (Number_toString host (Math_random host (rng st + 1))), 1000%Z);
          (addFile_transition
             (Number_toString host (Math_random host (rng st + 3))), 1000%Z)].
Proof.
  intros Hr1 Hx1 Ht1 Hi1 Hr2 Hx2 Ht2 Hi2.
  destruct (addFile_run_supported host slide1 realpath1 e1 type1 st
              Hr1 Hx1 Ht1 Hi1) as [settings1 H1].
  cbn zeta in H1.
  match type of H1 with
  | _ = (inr (Some ?s1), ?st1) =>
      destruct (addFile_run_supported host slide2 realpath2 e2 type2 st1
                  Hr2 Hx2 Ht2 Hi2) as [settings2 H2];
      cbn zeta in H2; cbn [rng set_rng set_trace trace] in H2;
      exists s1, st1
  end.
  match type of H2 with
  | _ = (inr (Some ?s2), ?st2) => exists s2, st2
  end.
  split; [exact H1|]. split; [exact H2|].
  cbn [rng set_rng set_trace trace input_name].
  replace (rng st + 4)%nat with (S (S (S (S (rng st))))) by lia.
  replace (rng st + 2)%nat with (S (S (rng st))) by lia.
  replace (rng st + 1)%nat with (S (rng st)) by lia.
  replace (rng st + 3)%nat with (S (S (S (rng st)))) by lia.
  repeat split.
  rewrite !armed_timers_app. cbn [armed_timers addFile_calls flat_map app].
  now rewrite <- app_assoc.
Qed.

Lemma addFile_twice_witness :
  armed_timers
    (trace (snd (addFile example_host {| filePath := "/shows/b.mp3" |}
                   (snd (addFile example_host {| filePath := "/shows/a.png" |}
                                 example_state)))))
  = [(addFile_transition
        (Number_toString example_host (Math_random example_host 1)), 1000%Z);
     (addFile_transition
        (Number_toString example_host (Math_random example_host 3)), 1000%Z)].
Proof.
  destruct (addFile_twice example_host {| filePath := "/shows/a.png" |}
              {| filePath := "/shows/b.mp3" |}
              "/shows/a.png" "png" "/shows/b.mp3" "mp3"
              {| extensions := ["png"; "jpg"; "jpeg"; "tga"; "bmp"];
                 prettyName := "Image files"; obsName := "image_source" |}
              video_files example_state)
    as [s1 [st1 [s2 [st2 [H1 [H2 [_ [_ [_ Htimers]]]]]]]]].
  - reflexivity.
  - reflexivity.
  - simpl; auto.
  - reflexivity.
  - reflexivity.
  - reflexivity.
  - simpl; auto.
  - reflexivity.
  - rewrite H1. cbn [snd]. rewrite H2. cbn [snd]. rewrite Htimers. reflexivity.
Defined.
